(** * find_friends: a Streamlit page over a clustering model

    A shallow embedding of [app.py].  The page loads a clustering model,
    predicts the cluster of the profile entered in the sidebar, looks up the
    display name of that cluster, filters the participant table to the same
    cluster and draws one histogram per attribute column.

    The script is embedded as a computation over the process-wide Streamlit
    caches that emits page elements and ends normally, by [st.stop()], or by
    an uncaught exception of a library call.  The libraries the script calls
    (pathlib, os, json, pandas' reader, PyCaret) are fields of an
    environment record; the pandas operations the script applies to a frame
    (column selection, comparison with a scalar, boolean indexing,
    [sort_values], [len], [.empty]) are written out on a row model of the
    frame. *)

From Stdlib Require Import ZArith String Ascii List Sorted Permutation Lia.
From stdpp Require Import base option list strings gmap pretty.

Local Open Scope Z_scope.

(** ** Python values and exceptions *)

(** A scalar held by a frame cell: a Python (or numpy) integer or a string. *)
Inductive val :=
| VInt (z : Z)
| VStr (s : string).

(** A cell is a scalar or a missing value (pandas' NaN), written [None]. *)
Definition cell := option val.

Global Instance val_eq_dec : EqDecision val.
Proof. solve_decision. Defined.

(** [str(v)], which is also what an f-string field [{v}] renders. *)
Definition py_str (c : cell) : string :=
  match c with
  | Some (VInt z) => pretty z
  | Some (VStr s) => s
  | None => "nan"
  end.

(** The element-wise [==] of pandas: values of different types are unequal
    and a missing value is equal to nothing. *)
Definition py_eq (a b : cell) : bool :=
  match a, b with
  | Some (VInt x), Some (VInt y) => bool_decide (x = y)
  | Some (VStr x), Some (VStr y) => bool_decide (x = y)
  | _, _ => false
  end.

(** The exceptions (subclasses of [Exception]) library calls raise. *)
Inductive exn :=
| FileNotFoundError
| PermissionError
| OSError
| ValueError
| TypeError
| KeyError
| IndexError
| JSONDecodeError
| ParserError
| RuntimeError.

Inductive res (A : Type) :=
| Ok (a : A)
| Raise (e : exn).
Arguments Ok {A} a.
Arguments Raise {A} e.

Global Instance res_ret : MRet res := λ A a, Ok a.
Global Instance res_bind : MBind res := λ A B k m,
  match m with
  | Ok a => k a
  | Raise e => Raise e
  end.

(** [try: body  except Exception: handler]. *)
Definition try_except {A} (body : res A) (handler : exn → res A) : res A :=
  match body with
  | Ok a => Ok a
  | Raise e => handler e
  end.

(** ** Frames *)

(** A frame: its column labels and its rows, each row holding the cells in
    column order.  A row with no cell at a column reads as missing there. *)
Record DataFrame := {
  columns : list string;
  rows : list (list cell);
}.

Global Instance DataFrame_eq_dec : EqDecision DataFrame.
Proof. solve_decision. Defined.

(** Position of the first column with the given label. *)
Fixpoint index_of (name : string) (cols : list string) : option nat :=
  match cols with
  | [] => None
  | c :: cols' =>
      if bool_decide (c = name) then Some 0%nat
      else S <$> index_of name cols'
  end.

(** ["name" in df.columns] *)
Definition has_column (name : string) (df : DataFrame) : bool :=
  bool_decide (name ∈ columns df).

(** The cell of row [r] at position [i]. *)
Definition cell_at (i : nat) (r : list cell) : cell := default None (r !! i).

(** [df[name]]: the series of the column's cells, one per row; [KeyError]
    when there is no such column.  The labels of a frame are taken to be
    distinct, as [read_csv] makes them; for a label that occurs twice
    pandas returns a frame instead of a series, which is outside this
    model, where the first column with the label is read. *)
Definition getitem_column (df : DataFrame) (name : string) : res (list cell) :=
  match index_of name (columns df) with
  | Some i => Ok (map (cell_at i) (rows df))
  | None => Raise KeyError
  end.

(** [series == v] *)
Definition series_eq (s : list cell) (v : cell) : list bool :=
  map (λ c, py_eq c v) s.

(** Rows kept by a boolean mask. *)
Fixpoint mask_rows {A} (l : list A) (mask : list bool) : list A :=
  match l, mask with
  | x :: l', b :: mask' =>
      if b then x :: mask_rows l' mask' else mask_rows l' mask'
  | _, _ => []
  end.

(** [df[mask]] *)
Definition getitem_mask (df : DataFrame) (mask : list bool) : DataFrame :=
  {| columns := columns df; rows := mask_rows (rows df) mask |}.

(** [len(df)] *)
Definition len (df : DataFrame) : nat := length (rows df).

(** [df.empty]: some axis has length zero. *)
Definition df_empty (df : DataFrame) : bool :=
  bool_decide (length (rows df) = 0%nat) || bool_decide (length (columns df) = 0%nat).

(** [series.values[0]] *)
Definition values_0 (s : list cell) : res cell :=
  match s with
  | c :: _ => Ok c
  | [] => Raise IndexError
  end.

(** *** Sorting by a column *)

Definition is_int (c : cell) : bool :=
  match c with Some (VInt _) => true | _ => false end.
Definition is_str (c : cell) : bool :=
  match c with Some (VStr _) => true | _ => false end.
Definition is_missing (c : cell) : bool :=
  match c with None => true | _ => false end.

(** Python's [<] is defined between two integers and between two strings
    only; the keys of a column can be sorted when the present ones are all
    integers or all strings. *)
Definition comparable_keys (ks : list cell) : bool :=
  forallb (λ c, is_int c || is_missing c) ks
  || forallb (λ c, is_str c || is_missing c) ks.

(** Ascending key order, missing values last ([na_position='last']).
    The case of an integer against a string is never evaluated when the
    keys are comparable. *)
Definition key_leb (a b : cell) : bool :=
  match a, b with
  | _, None => true
  | None, Some _ => false
  | Some (VInt x), Some (VInt y) => bool_decide (x ≤ y)
  | Some (VStr x), Some (VStr y) => String.leb x y
  | Some (VInt _), Some (VStr _) => true
  | Some (VStr _), Some (VInt _) => false
  end.

Fixpoint insert_row (i : nat) (r : list cell) (l : list (list cell)) : list (list cell) :=
  match l with
  | [] => [r]
  | r' :: l' =>
      if key_leb (cell_at i r) (cell_at i r') then r :: l
      else r' :: insert_row i r l'
  end.

Fixpoint sort_rows (i : nat) (l : list (list cell)) : list (list cell) :=
  match l with
  | [] => []
  | r :: l' => insert_row i r (sort_rows i l')
  end.

(** [df.sort_values(by)]: a new frame, [df] is left as it is.  [KeyError]
    without such a column, [TypeError] when the keys mix integers and
    strings.  The order of rows with equal keys is not fixed by pandas'
    default sort; nothing below depends on it. *)
Definition sort_values (by_ : string) (df : DataFrame) : res DataFrame :=
  match index_of by_ (columns df) with
  | None => Raise KeyError
  | Some i =>
      if comparable_keys (map (cell_at i) (rows df))
      then Ok {| columns := columns df; rows := sort_rows i (rows df) |}
      else Raise TypeError
  end.

(** ** The world outside the script *)

(** [os.stat_result], the two fields the script reads. *)
Record stat_result := {
  st_mtime_ns : Z;
  st_size : Z;
}.

(** A loaded PyCaret model is used through [predict_model(model, data=df)]
    only, which returns a frame or raises. *)
Record Model := {
  predict_model : DataFrame → res DataFrame;
}.

(** The content of the cluster metadata file: a JSON object whose values
    are objects with string fields, the format of
    [cfg/nazwy_klastrow_4.json].  A file of another shape (an entry that is
    not an object, on which [.get] fails) is outside this model. *)
Definition Meta := gmap string (gmap string string).

Record Env := {
  (** [(MODELS_DIR / model_name).with_suffix(suffix)] *)
  models_path_with_suffix : string → string → res string;
  (** [path.stat()] *)
  path_stat : string → res stat_result;
  (** [path.exists()]: whether the file is there.  An operating system
      error other than a missing file, which [exists] passes on, is not
      modelled. *)
  path_exists : string → bool;
  (** [load_model(path_without_extension)] *)
  load_model : string → res Model;
  (** [with open(path, "r", encoding="utf-8") as f: json.load(f)] *)
  json_load : string → res Meta;
  (** [pd.read_csv(path, sep=';', encoding='utf-8')] *)
  read_csv : string → res DataFrame;
}.

Definition MODEL_NAME : string := "model_4".
Definition DATA_FILE : string := "data/data.csv".
Definition CLUSTERS_JSON : string := "cfg/nazwy_klastrow_4.json".

(** ** Page elements *)

(** A Plotly figure: what [px.histogram(data, x=..., title=...)] was given
    and the axis titles set by [update_layout]. *)
Record Figure := {
  fig_data : DataFrame;
  fig_x : string;
  fig_title : string;
  fig_xaxis_title : string;
  fig_yaxis_title : string;
}.

Inductive Element :=
| StHeader (body : string)
| StMarkdown (body : string)
| StSelectbox (label : string) (options : list string)
| StRadio (label : string) (options : list string)
| StMetric (label : string) (value : nat)
| StInfo (body : string)
| StError (body : string)
| StPlotlyChart (fig : Figure)
| InSidebar (e : Element).

(** ** The script monad *)

(** The Streamlit caches of the process: [st.cache_resource] of
    [get_model], keyed by the model name, and the two [st.cache_data]
    caches, keyed by the hashed arguments: the JSON path, and the pair of
    the data path and the model signature ([_model] is not hashed). *)
Record Caches := {
  model_cache : gmap string Model;
  meta_cache : gmap string Meta;
  data_cache : gmap (string * string) DataFrame;
}.

Definition no_caches : Caches :=
  {| model_cache := ∅; meta_cache := ∅; data_cache := ∅ |}.

(** How a run of the script, or of one of its functions, ends. *)
Inductive outcome (A : Type) :=
| Done (a : A)
| Stopped
| Raised (e : exn).
Arguments Done {A} a.
Arguments Stopped {A}.
Arguments Raised {A} e.

Definition App (A : Type) : Type := Caches → outcome A * Caches * list Element.

Global Instance app_ret : MRet App := λ A a c, (Done a, c, []).
Global Instance app_bind : MBind App := λ A B k m c,
  match m c with
  | (Done a, c', out) =>
      match k a c' with
      | (o, c'', out') => (o, c'', out ++ out')
      end
  | (Stopped, c', out) => (Stopped, c', out)
  | (Raised e, c', out) => (Raised e, c', out)
  end.

Definition emit (e : Element) : App unit := λ c, (Done tt, c, [e]).
(** [st.stop()] *)
Definition st_stop : App unit := λ c, (Stopped, c, []).
(** A library call inside the script: its exception is not caught. *)
Definition lift {A} (r : res A) : App A := λ c,
  match r with
  | Ok a => (Done a, c, [])
  | Raise e => (Raised e, c, [])
  end.
(** [if cond: body] *)
Definition when (cond : bool) (body : App unit) : App unit :=
  if cond then body else mret tt.

Definition st_header (s : string) : App unit := emit (StHeader s).
Definition st_markdown (s : string) : App unit := emit (StMarkdown s).
Definition st_metric (label : string) (n : nat) : App unit := emit (StMetric label n).
Definition st_info (s : string) : App unit := emit (StInfo s).
Definition st_error (s : string) : App unit := emit (StError s).
Definition st_plotly_chart (fig : Figure) : App unit := emit (StPlotlyChart fig).

(** A cached function: on a hit the stored value is returned and the body
    does not run; on a miss the body runs and its value is stored when it
    returns (nothing is stored when it stops or raises). *)
Definition cached {A} (lookup : Caches → option A) (store : A → Caches → Caches)
    (body : App A) : App A := λ c,
  match lookup c with
  | Some a => (Done a, c, [])
  | None =>
      match body c with
      | (Done a, c', out) => (Done a, store a c', out)
      | r => r
      end
  end.

(** ** The functions of [app.py] *)

Section Script.
Variable env : Env.

(** [get_model], under [st.cache_resource]. *)
Definition get_model_body (model_name : string) : App Model :=
  lift (model_path_no_ext ← models_path_with_suffix env model_name "";
        load_model env model_path_no_ext).

Definition get_model (model_name : string) : App Model :=
  cached (λ c, model_cache c !! model_name)
         (λ m c, {| model_cache := <[model_name := m]> (model_cache c);
                    meta_cache := meta_cache c;
                    data_cache := data_cache c |})
         (get_model_body model_name).

(** [get_model_signature]: the whole body is inside [try], the handler
    catches every [Exception]. *)
Definition get_model_signature (model_name : string) : res string :=
  try_except
    (pkl_path ← models_path_with_suffix env model_name ".pkl";
     stt ← path_stat env pkl_path;
     mret (model_name +:+ ":" +:+ pretty (st_mtime_ns stt)
                      +:+ ":" +:+ pretty (st_size stt)))
    (λ _, mret model_name).

(** [get_cluster_names_and_descriptions], under [st.cache_data]. *)
Definition get_cluster_names_and_descriptions_body (json_path : string) : App Meta :=
  when (negb (path_exists env json_path))
    (st_error ("Brak pliku z nazwami/objaśnieniami klastrów: " +:+ json_path);;
     st_stop);;
  lift (json_load env json_path).

Definition get_cluster_names_and_descriptions (json_path : string) : App Meta :=
  cached (λ c, meta_cache c !! json_path)
         (λ m c, {| model_cache := model_cache c;
                    meta_cache := <[json_path := m]> (meta_cache c);
                    data_cache := data_cache c |})
         (get_cluster_names_and_descriptions_body json_path).

(** [get_all_participants], under [st.cache_data]; [model_sig] is not
    used by the body, it is part of the cache key. *)
Definition get_all_participants_body (data_path : string) (_model : Model)
    (model_sig : string) : App DataFrame :=
  when (negb (path_exists env data_path))
    (st_error ("Brak pliku z danymi: " +:+ data_path);;
     st_stop);;
  all_df ← lift (read_csv env data_path);
  df_with_clusters ← lift (predict_model _model all_df);
  when (negb (has_column "Cluster" df_with_clusters))
    (st_error "Wynik predict_model nie zawiera kolumny 'Cluster'. Sprawdź zgodność modelu i danych.";;
     st_stop);;
  mret df_with_clusters.

Definition get_all_participants (data_path : string) (_model : Model)
    (model_sig : string) : App DataFrame :=
  cached (λ c, data_cache c !! (data_path, model_sig))
         (λ df c, {| model_cache := model_cache c;
                     meta_cache := meta_cache c;
                     data_cache := <[(data_path, model_sig) := df]> (data_cache c) |})
         (get_all_participants_body data_path _model model_sig).
End Script.

(** *** The sidebar form *)

Definition AGE_OPTIONS : list string :=
  ["<18"; "18-24"; "25-34"; "35-44"; "45-54"; "55-64"; ">=65"; "unknown"].
Definition EDU_OPTIONS : list string := ["Podstawowe"; "Średnie"; "Wyższe"].
Definition ANIMALS_OPTIONS : list string :=
  ["Brak ulubionych"; "Psy"; "Koty"; "Koty i Psy"; "Inne"].
Definition PLACE_OPTIONS : list string := ["Nad wodą"; "W lesie"; "W górach"; "Inne"].
Definition GENDER_OPTIONS : list string := ["Mężczyzna"; "Kobieta"].

(** What the user has selected in the five widgets. *)
Record Form := {
  age : string;
  edu_level : string;
  fav_animals : string;
  fav_place : string;
  gender : string;
}.

Definition person_df (form : Form) : DataFrame :=
  {| columns := ["age"; "edu_level"; "fav_animals"; "fav_place"; "gender"];
     rows := [[Some (VStr (age form)); Some (VStr (edu_level form));
               Some (VStr (fav_animals form)); Some (VStr (fav_place form));
               Some (VStr (gender form))]] |}.

Definition sidebar (form : Form) : App DataFrame :=
  emit (InSidebar (StHeader "Powiedz nam coś o sobie"));;
  emit (InSidebar (StMarkdown "Pomożemy Ci znaleźć osoby o podobnych zainteresowaniach."));;
  emit (InSidebar (StSelectbox "Wiek" AGE_OPTIONS));;
  emit (InSidebar (StSelectbox "Wykształcenie" EDU_OPTIONS));;
  emit (InSidebar (StSelectbox "Ulubione zwierzęta" ANIMALS_OPTIONS));;
  emit (InSidebar (StSelectbox "Ulubione miejsce" PLACE_OPTIONS));;
  emit (InSidebar (StRadio "Płeć" GENDER_OPTIONS));;
  mret (person_df form).

(** *** Name and description of the cluster *)

Definition predicted_cluster_id_str (predicted_cluster_id : cell) : string :=
  py_str predicted_cluster_id.

Definition cluster_name (cluster_meta : Meta) (predicted_cluster_id : cell) : string :=
  match cluster_meta !! predicted_cluster_id_str predicted_cluster_id with
  | None => "Klaster " +:+ py_str predicted_cluster_id
  | Some entry => default ("Klaster " +:+ py_str predicted_cluster_id) (entry !! "name")
  end.

Definition cluster_desc (cluster_meta : Meta) (predicted_cluster_id : cell) : string :=
  match cluster_meta !! predicted_cluster_id_str predicted_cluster_id with
  | None => "Brak opisu dla tego klastra. Uzupełnij plik cfg/nazwy_klastrow_4.json."
  | Some entry => default "Brak opisu dla tego klastra." (entry !! "description")
  end.

(** *** The peer group and its charts *)

(** [all_df[all_df["Cluster"] == predicted_cluster_id]] *)
Definition same_cluster_df (all_df : DataFrame) (predicted_cluster_id : cell) : res DataFrame :=
  cluster_column ← getitem_column all_df "Cluster";
  mret (getitem_mask all_df (series_eq cluster_column predicted_cluster_id)).

(** [px.histogram(data, x=x, title=title)] followed by
    [fig.update_layout(xaxis_title=..., yaxis_title=...)]. *)
Definition px_histogram (data : DataFrame) (x title : string) : Figure :=
  {| fig_data := data; fig_x := x; fig_title := title;
     fig_xaxis_title := ""; fig_yaxis_title := "" |}.

Definition update_layout (fig : Figure) (xaxis_title yaxis_title : string) : Figure :=
  {| fig_data := fig_data fig; fig_x := fig_x fig; fig_title := fig_title fig;
     fig_xaxis_title := xaxis_title; fig_yaxis_title := yaxis_title |}.

Definition charts (df : DataFrame) : App unit :=
  when (has_column "age" df)
    (sorted ← lift (sort_values "age" df);
     st_plotly_chart (update_layout (px_histogram sorted "age" "Rozkład wieku w grupie")
                                    "Wiek" "Liczba osób"));;
  when (has_column "edu_level" df)
    (st_plotly_chart (update_layout (px_histogram df "edu_level" "Rozkład wykształcenia w grupie")
                                    "Wykształcenie" "Liczba osób"));;
  when (has_column "fav_animals" df)
    (st_plotly_chart (update_layout (px_histogram df "fav_animals" "Rozkład ulubionych zwierząt w grupie")
                                    "Ulubione zwierzęta" "Liczba osób"));;
  when (has_column "fav_place" df)
    (st_plotly_chart (update_layout (px_histogram df "fav_place" "Rozkład ulubionych miejsc w grupie")
                                    "Ulubione miejsce" "Liczba osób"));;
  when (has_column "gender" df)
    (st_plotly_chart (update_layout (px_histogram df "gender" "Rozkład płci w grupie")
                                    "Płeć" "Liczba osób")).

(** Lines 154 to 197: header, description, metric, and either the
    message for an empty group or the charts. *)
Definition present (cluster_meta : Meta) (all_df : DataFrame)
    (predicted_cluster_id : cell) : App unit :=
  st_header ("Najbliżej Ci do grupy: " +:+ cluster_name cluster_meta predicted_cluster_id);;
  st_markdown (cluster_desc cluster_meta predicted_cluster_id);;
  df ← lift (same_cluster_df all_df predicted_cluster_id);
  st_metric "Liczba osób w Twojej grupie" (len df);;
  when (df_empty df)
    (st_info "Brak osób w tej grupie (lub brak danych). Dodaj rekordy do data/data.csv.";;
     st_stop);;
  charts df.

(** *** The script, top to bottom *)

Definition app (env : Env) (form : Form) : App unit :=
  person ← sidebar form;
  model ← get_model env MODEL_NAME;
  model_sig ← lift (get_model_signature env MODEL_NAME);
  cluster_meta ← get_cluster_names_and_descriptions env CLUSTERS_JSON;
  all_df ← get_all_participants env DATA_FILE model model_sig;
  pred ← lift (predict_model model person);
  when (negb (has_column "Cluster" pred))
    (st_error "Brak kolumny 'Cluster' w wyniku predykcji. Sprawdź model i wejście.";;
     st_stop);;
  predicted_cluster_id ← lift (getitem_column pred "Cluster" ≫= values_0);
  present cluster_meta all_df predicted_cluster_id.

(** ** Reference notions used by the statements *)

(** The cluster assigned to a row of a frame: its cell in the first column
    labelled [Cluster]. *)
Definition assigned_cluster (df : DataFrame) (r : list cell) : cell :=
  match index_of "Cluster" (columns df) with
  | Some i => cell_at i r
  | None => None
  end.

(** Number of rows satisfying a test. *)
Fixpoint count_rows (p : list cell → bool) (l : list (list cell)) : nat :=
  match l with
  | [] => 0%nat
  | r :: l' => ((if p r then 1 else 0) + count_rows p l')%nat
  end.

(** The five attribute columns, in the order the script charts them. *)
Definition ATTRIBUTES : list string :=
  ["age"; "edu_level"; "fav_animals"; "fav_place"; "gender"].

(** The figures among the elements of a page, in page order. *)
Definition figures (out : list Element) : list Figure :=
  omap (λ e, match e with StPlotlyChart fig => Some fig | _ => None end) out.

(** The row order [sort_values(by)] establishes: keys ascending. *)
Definition key_le (i : nat) (r1 r2 : list cell) : Prop :=
  key_leb (cell_at i r1) (cell_at i r2) = true.

(** The rows of [df] are in ascending order of column [by_]. *)
Definition sorted_by (by_ : string) (df : DataFrame) : Prop :=
  ∃ i, index_of by_ (columns df) = Some i ∧ Sorted (key_le i) (rows df).

(** The keys of column [by_], when [df] has it, can be compared. *)
Definition comparable_column (by_ : string) (df : DataFrame) : bool :=
  match index_of by_ (columns df) with
  | Some i => comparable_keys (map (cell_at i) (rows df))
  | None => true
  end.

(** The four charts after the age chart. *)
Definition later_charts (df : DataFrame) : list Element :=
  (if has_column "edu_level" df
   then [StPlotlyChart (update_layout (px_histogram df "edu_level" "Rozkład wykształcenia w grupie")
                                      "Wykształcenie" "Liczba osób")]
   else [])
  ++ (if has_column "fav_animals" df
      then [StPlotlyChart (update_layout (px_histogram df "fav_animals" "Rozkład ulubionych zwierząt w grupie")
                                         "Ulubione zwierzęta" "Liczba osób")]
      else [])
  ++ (if has_column "fav_place" df
      then [StPlotlyChart (update_layout (px_histogram df "fav_place" "Rozkład ulubionych miejsc w grupie")
                                         "Ulubione miejsce" "Liczba osób")]
      else [])
  ++ (if has_column "gender" df
      then [StPlotlyChart (update_layout (px_histogram df "gender" "Rozkład płci w grupie")
                                         "Płeć" "Liczba osób")]
      else []).

(** The text of a signature computed from a stat result. *)
Definition signature_of (model_name : string) (stt : stat_result) : string :=
  model_name +:+ ":" +:+ pretty (st_mtime_ns stt) +:+ ":" +:+ pretty (st_size stt).

(** Whether a string contains the separator of the signature. *)
Fixpoint has_colon (s : string) : bool :=
  match s with
  | EmptyString => false
  | String a s' => bool_decide (a = ":"%char) || has_colon s'
  end.

(** What the sidebar puts on the page. *)
Definition sidebar_elements : list Element :=
  [InSidebar (StHeader "Powiedz nam coś o sobie");
   InSidebar (StMarkdown "Pomożemy Ci znaleźć osoby o podobnych zainteresowaniach.");
   InSidebar (StSelectbox "Wiek" AGE_OPTIONS);
   InSidebar (StSelectbox "Wykształcenie" EDU_OPTIONS);
   InSidebar (StSelectbox "Ulubione zwierzęta" ANIMALS_OPTIONS);
   InSidebar (StSelectbox "Ulubione miejsce" PLACE_OPTIONS);
   InSidebar (StRadio "Płeć" GENDER_OPTIONS)].

(** The four error messages of the script. *)
Definition NO_METADATA_FILE (json_path : string) : string :=
  "Brak pliku z nazwami/objaśnieniami klastrów: " +:+ json_path.
Definition NO_DATA_FILE (data_path : string) : string :=
  "Brak pliku z danymi: " +:+ data_path.
Definition NO_CLUSTER_IN_BULK : string :=
  "Wynik predict_model nie zawiera kolumny 'Cluster'. Sprawdź zgodność modelu i danych.".
Definition NO_CLUSTER_IN_PREDICTION : string :=
  "Brak kolumny 'Cluster' w wyniku predykcji. Sprawdź model i wejście.".
(** The message for an empty peer group. *)
Definition NO_PEERS : string :=
  "Brak osób w tej grupie (lub brak danych). Dodaj rekordy do data/data.csv.".

(** A run that was halted on an error: it ended by [st.stop()] and the
    last element on the page is the error message. *)
Definition halted_with {A} (msg : string) (r : outcome A * Caches * list Element) : Prop :=
  r.1.1 = Stopped ∧ ∃ before, r.2 = before ++ [StError msg].

(** Storing a frame in the cache of [get_all_participants]. *)
Definition store_participants (data_path model_sig : string) (df : DataFrame)
    (c : Caches) : Caches :=
  {| model_cache := model_cache c;
     meta_cache := meta_cache c;
     data_cache := <[(data_path, model_sig) := df]> (data_cache c) |}.

(** The ways the script halts on an error, each with the message it
    shows and with what brings the run there: the earlier stages have
    returned, the cached function (if it is one) missed its cache, and the
    test in front of [st.error] succeeded. *)
Inductive halt_cause (env : Env) (form : Form) (c : Caches) : string → Prop :=
| halt_no_metadata_file model c1 o1 :
    get_model env MODEL_NAME c = (Done model, c1, o1) →
    meta_cache c1 !! CLUSTERS_JSON = None →
    path_exists env CLUSTERS_JSON = false →
    halt_cause env form c (NO_METADATA_FILE CLUSTERS_JSON)
| halt_no_data_file model c1 o1 model_sig cluster_meta c2 o2 :
    get_model env MODEL_NAME c = (Done model, c1, o1) →
    get_model_signature env MODEL_NAME = Ok model_sig →
    get_cluster_names_and_descriptions env CLUSTERS_JSON c1 = (Done cluster_meta, c2, o2) →
    data_cache c2 !! (DATA_FILE, model_sig) = None →
    path_exists env DATA_FILE = false →
    halt_cause env form c (NO_DATA_FILE DATA_FILE)
| halt_no_cluster_in_bulk model c1 o1 model_sig cluster_meta c2 o2 all_df df :
    get_model env MODEL_NAME c = (Done model, c1, o1) →
    get_model_signature env MODEL_NAME = Ok model_sig →
    get_cluster_names_and_descriptions env CLUSTERS_JSON c1 = (Done cluster_meta, c2, o2) →
    data_cache c2 !! (DATA_FILE, model_sig) = None →
    path_exists env DATA_FILE = true →
    read_csv env DATA_FILE = Ok all_df →
    predict_model model all_df = Ok df →
    has_column "Cluster" df = false →
    halt_cause env form c NO_CLUSTER_IN_BULK
| halt_no_cluster_in_prediction model c1 o1 model_sig cluster_meta c2 o2 all_df c3 o3 pred :
    get_model env MODEL_NAME c = (Done model, c1, o1) →
    get_model_signature env MODEL_NAME = Ok model_sig →
    get_cluster_names_and_descriptions env CLUSTERS_JSON c1 = (Done cluster_meta, c2, o2) →
    get_all_participants env DATA_FILE model model_sig c2 = (Done all_df, c3, o3) →
    predict_model model (person_df form) = Ok pred →
    has_column "Cluster" pred = false →
    halt_cause env form c NO_CLUSTER_IN_PREDICTION.

(** Every frame in the cache of [get_all_participants] has the [Cluster]
    column. *)
Definition caches_ok (c : Caches) : Prop :=
  ∀ key df, data_cache c !! key = Some df → has_column "Cluster" df = true.

(** [c'] holds every entry of [c], unchanged. *)
Definition caches_le (c c' : Caches) : Prop :=
  (∀ k m, model_cache c !! k = Some m → model_cache c' !! k = Some m)
  ∧ (∀ k m, meta_cache c !! k = Some m → meta_cache c' !! k = Some m)
  ∧ (∀ k df, data_cache c !! k = Some df → data_cache c' !! k = Some df).

(** The column labels of a frame are distinct. *)
Definition distinct_labels (df : DataFrame) : bool :=
  bool_decide (NoDup (columns df)).

(** The three entries the script reads are in the caches. *)
Definition warm (c : Caches) (model : Model) (cluster_meta : Meta) (model_sig : string)
    (all_df : DataFrame) : Prop :=
  model_cache c !! MODEL_NAME = Some model
  ∧ meta_cache c !! CLUSTERS_JSON = Some cluster_meta
  ∧ data_cache c !! (DATA_FILE, model_sig) = Some all_df.

(** Lines 131 to 197 as one computation: what the script does once the
    model, the metadata and the augmented dataset are at hand. *)
Definition respond (model : Model) (cluster_meta : Meta) (all_df : DataFrame)
    (form : Form) : App unit :=
  pred ← lift (predict_model model (person_df form));
  when (negb (has_column "Cluster" pred))
    (st_error "Brak kolumny 'Cluster' w wyniku predykcji. Sprawdź model i wejście.";;
     st_stop);;
  predicted_cluster_id ← lift (getitem_column pred "Cluster" ≫= values_0);
  present cluster_meta all_df predicted_cluster_id.

(** A library call of the script raises [e]: building the path of the
    model, loading it, reading the metadata or the data file, or a
    prediction. *)
Definition library_raises (env : Env) (e : exn) : Prop :=
  models_path_with_suffix env MODEL_NAME "" = Raise e
  ∨ (∃ path, load_model env path = Raise e)
  ∨ json_load env CLUSTERS_JSON = Raise e
  ∨ read_csv env DATA_FILE = Raise e
  ∨ (∃ model df, predict_model model df = Raise e).

(** ** Sample worlds *)

Module Sample.
(** Four participants, two columns. *)
Definition participants : DataFrame :=
  {| columns := ["age"; "gender"];
     rows := [[Some (VStr "<18"); Some (VStr "Kobieta")];
              [Some (VStr "18-24"); Some (VStr "Kobieta")];
              [Some (VStr ">=65"); Some (VStr "Mężczyzna")];
              [Some (VStr "25-34"); Some (VStr "Kobieta")]] |}.

(** A predictor that appends a [Cluster] column: integer 1 for the age
    bracket 18-24 and integer 0 otherwise. *)
Definition by_age : Model :=
  {| predict_model := λ df,
       Ok {| columns := columns df ++ ["Cluster"];
             rows := map (λ r, r ++ [Some (VInt (if bool_decide (cell_at 0 r = Some (VStr "18-24"))
                                                 then 1 else 0))])
                         (rows df) |} |}.

Definition explorers : Meta :=
  {[ "0" := {[ "name" := "Explorers"; "description" := "Curious and active." ]} ]}.

Definition world : Env :=
  {| models_path_with_suffix := λ name suffix, Ok ("models/" +:+ name +:+ suffix);
     path_stat := λ _, Ok {| st_mtime_ns := 1700000000000000000; st_size := 1024 |};
     path_exists := λ _, true;
     load_model := λ _, Ok by_age;
     json_load := λ _, Ok explorers;
     read_csv := λ _, Ok participants |}.

(** [world] after the model file was replaced by a larger one. *)
Definition world_new_model : Env :=
  {| models_path_with_suffix := models_path_with_suffix world;
     path_stat := λ _, Ok {| st_mtime_ns := 1700000000000000000; st_size := 2048 |};
     path_exists := path_exists world;
     load_model := load_model world;
     json_load := json_load world;
     read_csv := read_csv world |}.

(** [world] with a model file that cannot be read by this user. *)
Definition world_locked_model : Env :=
  {| models_path_with_suffix := models_path_with_suffix world;
     path_stat := λ _, Raise PermissionError;
     path_exists := path_exists world;
     load_model := load_model world;
     json_load := json_load world;
     read_csv := read_csv world |}.

(** [world] where building the path of the model file fails. *)
Definition world_bad_name : Env :=
  {| models_path_with_suffix := λ _ _, Raise ValueError;
     path_stat := path_stat world;
     path_exists := path_exists world;
     load_model := load_model world;
     json_load := json_load world;
     read_csv := read_csv world |}.

(** [world] without the metadata file. *)
Definition world_no_metadata : Env :=
  {| models_path_with_suffix := models_path_with_suffix world;
     path_stat := path_stat world;
     path_exists := λ p, negb (bool_decide (p = CLUSTERS_JSON));
     load_model := load_model world;
     json_load := λ _, Raise FileNotFoundError;
     read_csv := read_csv world |}.

(** [world] without the data file. *)
Definition world_no_data : Env :=
  {| models_path_with_suffix := models_path_with_suffix world;
     path_stat := path_stat world;
     path_exists := λ p, negb (bool_decide (p = DATA_FILE));
     load_model := load_model world;
     json_load := json_load world;
     read_csv := λ _, Raise FileNotFoundError |}.

(** A predictor that returns its input, with no [Cluster] column. *)
Definition no_cluster : Model := {| predict_model := λ df, Ok df |}.

(** A predictor that adds the column to tables of several rows only. *)
Definition bulk_only : Model :=
  {| predict_model := λ df,
       if bool_decide (1 < length (rows df))%nat then predict_model by_age df else Ok df |}.

(** [world] with another model file. *)
Definition world_with_model (m : Model) : Env :=
  {| models_path_with_suffix := models_path_with_suffix world;
     path_stat := path_stat world;
     path_exists := path_exists world;
     load_model := λ _, Ok m;
     json_load := json_load world;
     read_csv := read_csv world |}.

(** [world] after a fifth participant was added to the data file. *)
Definition world_more_data : Env :=
  {| models_path_with_suffix := models_path_with_suffix world;
     path_stat := path_stat world;
     path_exists := path_exists world;
     load_model := load_model world;
     json_load := json_load world;
     read_csv := λ _, Ok {| columns := columns participants;
                            rows := rows participants
                                    ++ [[Some (VStr "35-44"); Some (VStr "Mężczyzna")]] |} |}.

Definition form : Form :=
  {| age := "<18"; edu_level := "Podstawowe"; fav_animals := "Psy";
     fav_place := "W lesie"; gender := "Kobieta" |}.

(** The augmented table of [world]. *)
Definition augmented : DataFrame :=
  {| columns := ["age"; "gender"; "Cluster"];
     rows := [[Some (VStr "<18"); Some (VStr "Kobieta"); Some (VInt 0)];
              [Some (VStr "18-24"); Some (VStr "Kobieta"); Some (VInt 1)];
              [Some (VStr ">=65"); Some (VStr "Mężczyzna"); Some (VInt 0)];
              [Some (VStr "25-34"); Some (VStr "Kobieta"); Some (VInt 0)]] |}.

(** The augmented table of [world_more_data]. *)
Definition augmented_more : DataFrame :=
  {| columns := columns augmented;
     rows := rows augmented
             ++ [[Some (VStr "35-44"); Some (VStr "Mężczyzna"); Some (VInt 0)]] |}.

(** The signature of the model file of [world]. *)
Definition signature : string := "model_4:1700000000000000000:1024".

(** The caches after a first render in [world]. *)
Definition warm_caches : Caches :=
  {| model_cache := {[ MODEL_NAME := by_age ]};
     meta_cache := {[ CLUSTERS_JSON := explorers ]};
     data_cache := {[ (DATA_FILE, signature) := augmented ]} |}.

(** The peer group of cluster 0 in [augmented], in table order. *)
Definition group_0 : DataFrame :=
  {| columns := ["age"; "gender"; "Cluster"];
     rows := [[Some (VStr "<18"); Some (VStr "Kobieta"); Some (VInt 0)];
              [Some (VStr ">=65"); Some (VStr "Mężczyzna"); Some (VInt 0)];
              [Some (VStr "25-34"); Some (VStr "Kobieta"); Some (VInt 0)]] |}.

(** The peer group of cluster 2 in [augmented]: nobody. *)
Definition group_2 : DataFrame :=
  {| columns := ["age"; "gender"; "Cluster"]; rows := [] |}.

(** [group_0] in ascending order of age bracket. *)
Definition group_0_by_age : DataFrame :=
  {| columns := ["age"; "gender"; "Cluster"];
     rows := [[Some (VStr "25-34"); Some (VStr "Kobieta"); Some (VInt 0)];
              [Some (VStr "<18"); Some (VStr "Kobieta"); Some (VInt 0)];
              [Some (VStr ">=65"); Some (VStr "Mężczyzna"); Some (VInt 0)]] |}.

(** A metadata file whose entry for cluster 0 has no fields. *)
Definition bare_entry : Meta := {[ "0" := ∅ ]}.
(** [world] after every file but the model file was deleted, and the
    model file can no longer be loaded. *)
Definition world_files_gone : Env :=
  {| models_path_with_suffix := models_path_with_suffix world;
     path_stat := path_stat world;
     path_exists := λ _, false;
     load_model := λ _, Raise FileNotFoundError;
     json_load := λ _, Raise FileNotFoundError;
     read_csv := λ _, Raise FileNotFoundError |}.
(** The signature after the model file was replaced by a larger one. *)
Definition signature_new : string := "model_4:1700000000000000000:2048".

(** [world] after the model file was replaced by a larger one that holds
    another predictor. *)
Definition world_swapped_model : Env :=
  {| models_path_with_suffix := models_path_with_suffix world;
     path_stat := path_stat world_new_model;
     path_exists := path_exists world;
     load_model := λ _, Ok no_cluster;
     json_load := json_load world;
     read_csv := read_csv world |}.

(** A table whose clusters are labelled the way PyCaret labels them. *)
Definition labelled : DataFrame :=
  {| columns := ["age"; "gender"; "Cluster"];
     rows := [[Some (VStr "<18"); Some (VStr "Kobieta"); Some (VStr "Cluster 0")];
              [Some (VStr "18-24"); Some (VStr "Kobieta"); Some (VStr "Cluster 1")];
              [Some (VStr ">=65"); Some (VStr "Mężczyzna"); Some (VStr "Cluster 0")]] |}.

(** A metadata file keyed by those labels. *)
Definition labelled_names : Meta :=
  {[ "Cluster 0" := {[ "name" := "Explorers"; "description" := "Curious and active." ]} ]}.

(** A predictor that fails on a table without the columns it was trained
    on. *)
Definition missing_columns : Model := {| predict_model := λ _, Raise KeyError |}.

(** A table whose age column holds a number and a category. *)
Definition mixed_ages : DataFrame :=
  {| columns := ["age"; "gender"; "Cluster"];
     rows := [[Some (VInt 30); Some (VStr "Kobieta"); Some (VInt 0)];
              [Some (VStr "<18"); Some (VStr "Kobieta"); Some (VInt 0)]] |}.

(** A predictor that returns the [Cluster] column with no row. *)
Definition no_rows : Model :=
  {| predict_model := λ df, Ok {| columns := columns df ++ ["Cluster"]; rows := [] |} |}.

(** [warm_caches] with [no_rows] as the loaded model. *)
Definition warm_caches_no_rows : Caches :=
  {| model_cache := {[ MODEL_NAME := no_rows ]};
     meta_cache := {[ CLUSTERS_JSON := explorers ]};
     data_cache := {[ (DATA_FILE, signature) := augmented ]} |}.
End Sample.

(** ** Lemmas on values and frames *)

Lemma py_eq_true (a b : cell) : py_eq a b = true ↔ a = b ∧ a ≠ None.
Proof.
  destruct a as [[x|x]|], b as [[y|y]|]; simpl;
    rewrite ?bool_decide_eq_true; split;
    first [ by intros [? ?] | by intros -> | by intros [[= ->] _] | discriminate ].
Qed.

Lemma index_of_Some (name : string) (cols : list string) :
  name ∈ cols → ∃ i, index_of name cols = Some i ∧ cols !! i = Some name.
Proof.
  induction cols as [|c cols IH]; intros Hin.
  - by apply elem_of_nil in Hin.
  - simpl. case_bool_decide as Hc.
    + exists 0%nat. by subst.
    + apply elem_of_cons in Hin as [->|Hin]; [done|].
      destruct (IH Hin) as (i & -> & Hi). by exists (S i).
Qed.

Lemma index_of_None (name : string) (cols : list string) :
  name ∉ cols → index_of name cols = None.
Proof.
  induction cols as [|c cols IH]; intros Hnin; [done|].
  simpl. apply not_elem_of_cons in Hnin as [Hne Hnin].
  rewrite bool_decide_eq_false_2 by done. by rewrite IH.
Qed.

Lemma has_column_index (name : string) (df : DataFrame) :
  has_column name df = true → ∃ i, index_of name (columns df) = Some i.
Proof.
  unfold has_column. rewrite bool_decide_eq_true. intros Hin.
  destruct (index_of_Some _ _ Hin) as (i & Hi & _). eauto.
Qed.

Lemma mask_rows_filter (i : nat) (v : cell) (l : list (list cell)) :
  mask_rows l (series_eq (map (cell_at i) l) v)
  = List.filter (λ r, py_eq (cell_at i r) v) l.
Proof.
  induction l as [|r l IH]; [done|].
  simpl. rewrite IH. by destruct (py_eq _ _).
Qed.

Lemma length_filter_count (p : list cell → bool) (l : list (list cell)) :
  length (List.filter p l) = count_rows p l.
Proof.
  induction l as [|r l IH]; [done|].
  simpl. destruct (p r); simpl; by rewrite IH.
Qed.

Lemma same_cluster_df_Ok (all_df : DataFrame) (id : cell) :
  has_column "Cluster" all_df = true →
  same_cluster_df all_df id
  = Ok {| columns := columns all_df;
          rows := List.filter (λ r, py_eq (assigned_cluster all_df r) id) (rows all_df) |}.
Proof.
  intros Hc. destruct (has_column_index _ _ Hc) as [i Hi].
  unfold same_cluster_df, getitem_column, getitem_mask, assigned_cluster.
  rewrite Hi. simpl. by rewrite mask_rows_filter.
Qed.

Lemma same_cluster_df_columns (all_df df : DataFrame) (id : cell) :
  same_cluster_df all_df id = Ok df →
  has_column "Cluster" all_df = true ∧ columns df = columns all_df.
Proof.
  unfold same_cluster_df, getitem_column, has_column.
  destruct (index_of "Cluster" (columns all_df)) as [i|] eqn:Hi; simpl; [|done].
  intros [= <-]. split; [|done].
  apply bool_decide_eq_true. destruct (decide ("Cluster" ∈ columns all_df)) as [|Hn]; [done|].
  by rewrite index_of_None in Hi.
Qed.

(** ** Running the script monad *)

#[local] Arguments String.append : simpl never.

Lemma run_bind {A B} (m : App A) (k : A → App B) (c : Caches) :
  (m ≫= k) c
  = match m c with
    | (Done a, c', out) => let '(o, c'', out') := k a c' in (o, c'', out ++ out')
    | (Stopped, c', out) => (Stopped, c', out)
    | (Raised e, c', out) => (Raised e, c', out)
    end.
Proof. done. Qed.

Lemma run_emit {A} (e : Element) (k : App A) (c : Caches) :
  (emit e;; k) c = (let '(o, c', out) := k c in (o, c', e :: out)).
Proof. unfold mbind, app_bind, emit. by destruct (k c) as [[o c'] out]. Qed.

Lemma run_lift_Ok {A B} (a : A) (k : A → App B) (c : Caches) :
  (lift (Ok a) ≫= k) c = k a c.
Proof. unfold mbind, app_bind, lift. by destruct (k a c) as [[o c'] out]. Qed.

Lemma run_lift_Raise {A B} (e : exn) (k : A → App B) (c : Caches) :
  (lift (Raise e) ≫= k) c = (Raised e, c, []).
Proof. done. Qed.

Lemma run_ret {A B} (a : A) (k : A → App B) (c : Caches) :
  (mret a ≫= k) c = k a c.
Proof. unfold mbind, app_bind, mret, app_ret. by destruct (k a c) as [[o c'] out]. Qed.

Lemma run_when_false {A} (body : App unit) (k : App A) (c : Caches) :
  (when false body;; k) c = k c.
Proof. unfold when. apply run_ret. Qed.

Lemma run_stop_after {A} (e : Element) (k : App A) (c : Caches) :
  (when true (emit e;; st_stop);; k) c = (Stopped, c, [e]).
Proof. done. Qed.

(** The presentation, case by case. *)
Lemma present_run (cluster_meta : Meta) (all_df : DataFrame) (id : cell) (c : Caches) :
  present cluster_meta all_df id c
  = let hdr := StHeader ("Najbliżej Ci do grupy: " +:+ cluster_name cluster_meta id) in
    let md := StMarkdown (cluster_desc cluster_meta id) in
    match same_cluster_df all_df id with
    | Raise e => (Raised e, c, [hdr; md])
    | Ok df =>
        let metric := StMetric "Liczba osób w Twojej grupie" (len df) in
        if df_empty df
        then (Stopped, c, [hdr; md; metric;
                StInfo "Brak osób w tej grupie (lub brak danych). Dodaj rekordy do data/data.csv."])
        else let '(o, c', out) := charts df c in (o, c', [hdr; md; metric] ++ out)
    end.
Proof.
  unfold present, st_header, st_markdown, st_metric, st_info.
  rewrite !run_emit.
  destruct (same_cluster_df all_df id) as [df|e]; [|done].
  rewrite run_lift_Ok, run_emit.
  destruct (df_empty df).
  - by rewrite run_stop_after.
  - rewrite run_when_false. by destruct (charts df c) as [[o c'] out].
Qed.

Lemma run_when_emit {A} (b : bool) (e : Element) (k : App A) (c : Caches) :
  (when b (emit e);; k) c
  = (let '(o, c', out) := k c in (o, c', (if b then [e] else []) ++ out)).
Proof.
  destruct b.
  - unfold when. unfold mbind at 1, app_bind, emit.
    by destruct (k c) as [[o c'] out].
  - rewrite run_when_false. by destruct (k c) as [[o c'] out].
Qed.

Lemma later_charts_run (df : DataFrame) (c : Caches) :
  (when (has_column "edu_level" df)
    (st_plotly_chart (update_layout (px_histogram df "edu_level" "Rozkład wykształcenia w grupie")
                                    "Wykształcenie" "Liczba osób"));;
   when (has_column "fav_animals" df)
    (st_plotly_chart (update_layout (px_histogram df "fav_animals" "Rozkład ulubionych zwierząt w grupie")
                                    "Ulubione zwierzęta" "Liczba osób"));;
   when (has_column "fav_place" df)
    (st_plotly_chart (update_layout (px_histogram df "fav_place" "Rozkład ulubionych miejsc w grupie")
                                    "Ulubione miejsce" "Liczba osób"));;
   when (has_column "gender" df)
    (st_plotly_chart (update_layout (px_histogram df "gender" "Rozkład płci w grupie")
                                    "Płeć" "Liczba osób"))) c
  = (Done tt, c, later_charts df).
Proof.
  unfold st_plotly_chart, later_charts.
  rewrite !run_when_emit.
  unfold when, emit, mret, app_ret.
  by destruct (has_column "gender" df).
Qed.

(** The chart phase, case by case. *)
Lemma charts_run (df : DataFrame) (c : Caches) :
  charts df c
  = if has_column "age" df
    then match sort_values "age" df with
         | Ok sorted =>
             (Done tt, c,
              StPlotlyChart (update_layout (px_histogram sorted "age" "Rozkład wieku w grupie")
                                           "Wiek" "Liczba osób")
              :: later_charts df)
         | Raise e => (Raised e, c, [])
         end
    else (Done tt, c, later_charts df).
Proof.
  unfold charts.
  destruct (has_column "age" df).
  - change (when true ?m) with m. rewrite run_bind.
    destruct (sort_values "age" df) as [sorted|e]; [|done].
    rewrite run_lift_Ok. unfold st_plotly_chart at 1, emit at 1.
    by rewrite later_charts_run.
  - rewrite run_when_false. apply later_charts_run.
Qed.

(** ** Sorting *)

Lemma key_leb_total (a b : cell) : key_leb a b = true ∨ key_leb b a = true.
Proof.
  destruct a as [[x|x]|], b as [[y|y]|]; simpl; auto.
  - rewrite !bool_decide_eq_true. lia.
  - apply String.leb_total.
Qed.

Lemma insert_row_perm (i : nat) (r : list cell) (l : list (list cell)) :
  insert_row i r l ≡ₚ r :: l.
Proof.
  induction l as [|r' l IH]; [done|].
  simpl. destruct (key_leb _ _); [done|].
  rewrite IH. apply Permutation_swap.
Qed.

Lemma sort_rows_perm (i : nat) (l : list (list cell)) : sort_rows i l ≡ₚ l.
Proof.
  induction l as [|r l IH]; [done|].
  simpl. by rewrite insert_row_perm, IH.
Qed.

Lemma insert_row_sorted (i : nat) (r : list cell) (l : list (list cell)) :
  Sorted (key_le i) l → Sorted (key_le i) (insert_row i r l).
Proof.
  induction 1 as [|r' l Hl IH Hhd]; simpl.
  - repeat constructor.
  - destruct (key_leb (cell_at i r) (cell_at i r')) eqn:Hle.
    + constructor; [by constructor|]. by constructor.
    + constructor; [done|].
      assert (key_le i r' r) as Hr.
      { unfold key_le. destruct (key_leb_total (cell_at i r) (cell_at i r')); congruence. }
      destruct Hhd as [|r'' l Hr'']; simpl; [by constructor|].
      destruct (key_leb (cell_at i r) (cell_at i r'')); by constructor.
Qed.

Lemma sort_rows_sorted (i : nat) (l : list (list cell)) :
  Sorted (key_le i) (sort_rows i l).
Proof.
  induction l as [|r l IH]; simpl; [constructor|].
  by apply insert_row_sorted.
Qed.

(** A successful [sort_values] returns the same columns and the same rows,
    rearranged into ascending key order. *)
Lemma sort_values_Ok (by_ : string) (df sorted : DataFrame) :
  sort_values by_ df = Ok sorted →
  columns sorted = columns df ∧ rows sorted ≡ₚ rows df ∧ sorted_by by_ sorted.
Proof.
  unfold sort_values, sorted_by.
  destruct (index_of by_ (columns df)) as [i|] eqn:Hi; [|done].
  destruct (comparable_keys _); [|done].
  intros [= <-]. simpl. split; [done|]. split; [apply sort_rows_perm|].
  exists i. split; [done|]. apply sort_rows_sorted.
Qed.

Lemma sort_values_comparable (by_ : string) (df : DataFrame) :
  has_column by_ df = true → comparable_column by_ df = true →
  ∃ sorted, sort_values by_ df = Ok sorted.
Proof.
  intros Hc. destruct (has_column_index _ _ Hc) as [i Hi].
  unfold comparable_column, sort_values. rewrite Hi. intros ->. eauto.
Qed.

(** Mixed keys are the one way [sort_values] fails on a column that is
    there. *)
Lemma sort_values_mixed (by_ : string) (df : DataFrame) :
  has_column by_ df = true → comparable_column by_ df = false →
  sort_values by_ df = Raise TypeError.
Proof.
  intros Hc. destruct (has_column_index _ _ Hc) as [i Hi].
  unfold comparable_column, sort_values. rewrite Hi. by intros ->.
Qed.

Lemma later_charts_figures (df : DataFrame) :
  map StPlotlyChart (figures (later_charts df)) = later_charts df
  ∧ map fig_x (figures (later_charts df))
    = List.filter (λ a, has_column a df) ["edu_level"; "fav_animals"; "fav_place"; "gender"]
  ∧ Forall (λ fig, fig_x fig ≠ "age" ∧ fig_data fig = df) (figures (later_charts df)).
Proof.
  unfold later_charts. simpl.
  destruct (has_column "edu_level" df), (has_column "fav_animals" df),
    (has_column "fav_place" df), (has_column "gender" df); simpl;
    repeat split; repeat constructor; simpl; done.
Qed.

(** The chart phase emits figures only and leaves the caches alone. *)
Lemma charts_only_figures (df : DataFrame) (c c' : Caches) (o : outcome unit)
    (out : list Element) :
  charts df c = (o, c', out) → c' = c ∧ map StPlotlyChart (figures out) = out.
Proof.
  rewrite charts_run. destruct (later_charts_figures df) as (Hl & _ & _).
  destruct (has_column "age" df); [destruct (sort_values "age" df)|];
    intros [= <- <- <-]; split; try done; simpl; by rewrite Hl.
Qed.

(** ** The peer group: count, empty group, charts *)

(** C1. Filtering the augmented dataset to the rows whose [Cluster] cell
    equals the predicted id keeps exactly those rows, each once and in
    table order, so the length of the result, which is the value of the
    metric on the page, is the number of rows whose assigned cluster equals
    the id. *)
Theorem same_cluster_count (cluster_meta : Meta) (all_df : DataFrame) (id : cell)
    (c : Caches) :
  has_column "Cluster" all_df = true →
  ∃ df,
    same_cluster_df all_df id = Ok df
    ∧ rows df = List.filter (λ r, py_eq (assigned_cluster all_df r) id) (rows all_df)
    ∧ len df = count_rows (λ r, py_eq (assigned_cluster all_df r) id) (rows all_df)
    ∧ (present cluster_meta all_df id c).2 !! 2%nat
      = Some (StMetric "Liczba osób w Twojej grupie"
                (count_rows (λ r, py_eq (assigned_cluster all_df r) id) (rows all_df))).
Proof.
  intros Hc. eexists. split; [by apply same_cluster_df_Ok|].
  split; [done|]. split; [apply length_filter_count|].
  rewrite present_run, same_cluster_df_Ok by done. cbv zeta.
  unfold len. simpl rows. rewrite length_filter_count.
  destruct (df_empty _); [done|]. by destruct (charts _ c) as [[o c'] out].
Qed.

Lemma same_cluster_count_witness :
  has_column "Cluster" Sample.augmented = true
  ∧ ∃ df,
      same_cluster_df Sample.augmented (Some (VInt 0)) = Ok df
      ∧ rows df = List.filter (λ r, py_eq (assigned_cluster Sample.augmented r) (Some (VInt 0)))
                              (rows Sample.augmented)
      ∧ len df = count_rows (λ r, py_eq (assigned_cluster Sample.augmented r) (Some (VInt 0)))
                            (rows Sample.augmented)
      ∧ (present Sample.explorers Sample.augmented (Some (VInt 0)) no_caches).2 !! 2%nat
        = Some (StMetric "Liczba osób w Twojej grupie"
                  (count_rows (λ r, py_eq (assigned_cluster Sample.augmented r) (Some (VInt 0)))
                              (rows Sample.augmented))).
Proof.
  split; [reflexivity|].
  apply (same_cluster_count Sample.explorers Sample.augmented (Some (VInt 0)) no_caches).
  reflexivity.
Defined.

(** C3. When the peer group has no rows the metric shows 0, the
    informational message follows, and the render stops there with no
    chart; when it has rows no message is shown and the render goes on
    with the chart phase, whose elements are all figures. *)
Theorem empty_group_stops (cluster_meta : Meta) (all_df df : DataFrame) (id : cell)
    (c : Caches) :
  same_cluster_df all_df id = Ok df →
  (len df = 0%nat →
     present cluster_meta all_df id c
     = (Stopped, c,
        [StHeader ("Najbliżej Ci do grupy: " +:+ cluster_name cluster_meta id);
         StMarkdown (cluster_desc cluster_meta id);
         StMetric "Liczba osób w Twojej grupie" 0;
         StInfo "Brak osób w tej grupie (lub brak danych). Dodaj rekordy do data/data.csv."])
     ∧ figures (present cluster_meta all_df id c).2 = [])
  ∧ (len df ≠ 0%nat →
     ∃ o out,
       charts df c = (o, c, out)
       ∧ present cluster_meta all_df id c
         = (o, c,
            [StHeader ("Najbliżej Ci do grupy: " +:+ cluster_name cluster_meta id);
             StMarkdown (cluster_desc cluster_meta id);
             StMetric "Liczba osób w Twojej grupie" (len df)] ++ out)
       ∧ map StPlotlyChart (figures out) = out
       ∧ ∀ s, StInfo s ∉ (present cluster_meta all_df id c).2).
Proof.
  intros Hdf. destruct (same_cluster_df_columns _ _ _ Hdf) as [Hc Hcols].
  assert (df_empty df = bool_decide (len df = 0%nat)) as Hempty.
  { unfold df_empty, len. rewrite Hcols.
    unfold has_column in Hc. apply bool_decide_eq_true in Hc.
    destruct (columns all_df); [by apply elem_of_nil in Hc|].
    simpl. apply orb_false_r. }
  rewrite present_run, Hdf. cbv zeta. rewrite Hempty. split; intros Hlen.
  - rewrite bool_decide_eq_true_2 by done. by rewrite Hlen.
  - rewrite bool_decide_eq_false_2 by done.
    destruct (charts df c) as [[o c'] out] eqn:Hch.
    destruct (charts_only_figures _ _ _ _ _ Hch) as [-> Hfig].
    exists o, out. repeat split; [done|].
    intros s Hin. simpl in Hin. rewrite <- Hfig in Hin.
    rewrite !elem_of_cons, list_elem_of_fmap in Hin.
    destruct Hin as [?|[?|[?|(fig & ? & _)]]]; done.
Qed.

Lemma empty_group_stops_witness :
  same_cluster_df Sample.augmented (Some (VInt 2)) = Ok Sample.group_2
  ∧ len Sample.group_2 = 0%nat
  ∧ present Sample.explorers Sample.augmented (Some (VInt 2)) no_caches
    = (Stopped, no_caches,
       [StHeader "Najbliżej Ci do grupy: Klaster 2";
        StMarkdown "Brak opisu dla tego klastra. Uzupełnij plik cfg/nazwy_klastrow_4.json.";
        StMetric "Liczba osób w Twojej grupie" 0;
        StInfo "Brak osób w tej grupie (lub brak danych). Dodaj rekordy do data/data.csv."])
  ∧ same_cluster_df Sample.augmented (Some (VInt 0)) = Ok Sample.group_0
  ∧ len Sample.group_0 ≠ 0%nat
  ∧ ∀ s, StInfo s ∉ (present Sample.explorers Sample.augmented (Some (VInt 0)) no_caches).2.
Proof.
  split; [reflexivity|]. split; [reflexivity|]. split.
  { apply (empty_group_stops Sample.explorers Sample.augmented Sample.group_2
             (Some (VInt 2)) no_caches); reflexivity. }
  split; [reflexivity|]. split; [discriminate|].
  destruct (proj2 (empty_group_stops Sample.explorers Sample.augmented Sample.group_0
                     (Some (VInt 0)) no_caches eq_refl)) as (o & out & _ & _ & _ & Hinfo);
    [discriminate|exact Hinfo].
Defined.

(** C8, as the code has it.  For a peer group with rows whose age
    column, when it has one, holds values that can be compared with each
    other (all strings or all numbers, missing ones aside), the page
    carries, after header, description and metric, exactly one histogram
    for each of the columns age, edu_level, fav_animals, fav_place, gender
    that the group has, in that order, and none for a column it lacks; the
    age histogram is drawn from the group sorted in ascending order of the
    age values (for strings the order of their characters), every other
    one from the group as it is. *)
Theorem one_histogram_per_present_column (cluster_meta : Meta) (all_df df : DataFrame)
    (id : cell) (c : Caches) :
  same_cluster_df all_df id = Ok df →
  len df ≠ 0%nat →
  comparable_column "age" df = true →
  ∃ figs,
    present cluster_meta all_df id c
    = (Done tt, c,
       [StHeader ("Najbliżej Ci do grupy: " +:+ cluster_name cluster_meta id);
        StMarkdown (cluster_desc cluster_meta id);
        StMetric "Liczba osób w Twojej grupie" (len df)] ++ map StPlotlyChart figs)
    ∧ map fig_x figs = List.filter (λ a, has_column a df) ATTRIBUTES
    ∧ ∀ fig, fig ∈ figs →
        if bool_decide (fig_x fig = "age")
        then columns (fig_data fig) = columns df
             ∧ rows (fig_data fig) ≡ₚ rows df
             ∧ sorted_by "age" (fig_data fig)
        else fig_data fig = df.
Proof.
  intros Hdf Hlen Hcmp.
  assert (df_empty df = false) as Hne.
  { destruct (same_cluster_df_columns _ _ _ Hdf) as [Hc Hcols].
    unfold df_empty, len in *. rewrite Hcols.
    apply bool_decide_eq_true in Hc.
    destruct (columns all_df); [by apply elem_of_nil in Hc|].
    rewrite bool_decide_eq_false_2 by done. done. }
  rewrite present_run, Hdf. cbv zeta. rewrite Hne, charts_run.
  destruct (later_charts_figures df) as (Hmap & Hx & Hdata).
  assert (∀ fig, fig ∈ figures (later_charts df) →
            if bool_decide (fig_x fig = "age")
            then columns (fig_data fig) = columns df
                 ∧ rows (fig_data fig) ≡ₚ rows df ∧ sorted_by "age" (fig_data fig)
            else fig_data fig = df) as Hlater.
  { intros fig Hin. rewrite Forall_forall in Hdata.
    destruct (Hdata fig Hin) as [Hx' Hd]. by rewrite bool_decide_eq_false_2. }
  unfold ATTRIBUTES. simpl List.filter.
  destruct (has_column "age" df) eqn:Hage.
  - destruct (sort_values_comparable _ _ Hage Hcmp) as [sorted Hs]. rewrite Hs.
    exists (update_layout (px_histogram sorted "age" "Rozkład wieku w grupie")
                          "Wiek" "Liczba osób" :: figures (later_charts df)).
    split; [simpl; by rewrite Hmap|]. split; [simpl; by rewrite Hx|].
    intros fig [->|Hin]%elem_of_cons; [|by apply Hlater].
    simpl. by apply sort_values_Ok.
  - exists (figures (later_charts df)).
    split; [by rewrite Hmap|]. split; [by rewrite Hx|]. done.
Qed.

Lemma one_histogram_per_present_column_witness :
  same_cluster_df Sample.augmented (Some (VInt 0)) = Ok Sample.group_0
  ∧ len Sample.group_0 ≠ 0%nat
  ∧ comparable_column "age" Sample.group_0 = true
  ∧ ∃ figs,
      present Sample.explorers Sample.augmented (Some (VInt 0)) no_caches
      = (Done tt, no_caches,
         [StHeader ("Najbliżej Ci do grupy: "
                    +:+ cluster_name Sample.explorers (Some (VInt 0)));
          StMarkdown (cluster_desc Sample.explorers (Some (VInt 0)));
          StMetric "Liczba osób w Twojej grupie" (len Sample.group_0)]
         ++ map StPlotlyChart figs)
      ∧ map fig_x figs = List.filter (λ a, has_column a Sample.group_0) ATTRIBUTES
      ∧ ∀ fig, fig ∈ figs →
          if bool_decide (fig_x fig = "age")
          then columns (fig_data fig) = columns Sample.group_0
               ∧ rows (fig_data fig) ≡ₚ rows Sample.group_0
               ∧ sorted_by "age" (fig_data fig)
          else fig_data fig = Sample.group_0.
Proof.
  split; [reflexivity|]. split; [discriminate|]. split; [reflexivity|].
  apply (one_histogram_per_present_column Sample.explorers Sample.augmented
           Sample.group_0 (Some (VInt 0)) no_caches);
    [reflexivity|discriminate|reflexivity].
Defined.

(** C8 as worded fails for a peer group whose age column mixes a number
    and a string: the group has rows and the columns age and gender, and
    the page gets no histogram, for [sort_values] raises [TypeError] at
    the first chart. *)
Lemma mixed_age_group_gets_no_histogram :
  same_cluster_df Sample.mixed_ages (Some (VInt 0)) = Ok Sample.mixed_ages
  ∧ len Sample.mixed_ages = 2%nat
  ∧ List.filter (λ a, has_column a Sample.mixed_ages) ATTRIBUTES = ["age"; "gender"]
  ∧ (present Sample.explorers Sample.mixed_ages (Some (VInt 0)) no_caches).1.1
    = Raised TypeError
  ∧ figures (present Sample.explorers Sample.mixed_ages (Some (VInt 0)) no_caches).2 = [].
Proof. repeat split; reflexivity. Qed.

(** C10. The age histogram is drawn from a sorted copy: the frame
    [sort_values] returns.  The peer group itself keeps the rows of the
    filter in table order, and every histogram after the age one is drawn
    from that unsorted group. *)
Theorem age_sort_leaves_group (cluster_meta : Meta) (all_df df : DataFrame) (id : cell)
    (c : Caches) :
  same_cluster_df all_df id = Ok df →
  rows df = List.filter (λ r, py_eq (assigned_cluster all_df r) id) (rows all_df)
  ∧ ∀ fig, fig ∈ figures (present cluster_meta all_df id c).2 →
      if bool_decide (fig_x fig = "age")
      then sort_values "age" df = Ok (fig_data fig)
      else fig_data fig = df.
Proof.
  intros Hdf. destruct (same_cluster_df_columns _ _ _ Hdf) as [Hc _].
  split. { rewrite same_cluster_df_Ok in Hdf by done. by injection Hdf as <-. }
  rewrite present_run, Hdf. cbv zeta.
  destruct (later_charts_figures df) as (_ & _ & Hdata). rewrite Forall_forall in Hdata.
  assert (∀ fig, fig ∈ figures (later_charts df) →
            if bool_decide (fig_x fig = "age")
            then sort_values "age" df = Ok (fig_data fig)
            else fig_data fig = df) as Hlater.
  { intros fig Hin. destruct (Hdata fig Hin) as [Hx' Hd]. by rewrite bool_decide_eq_false_2. }
  destruct (df_empty df); [by intros fig Hin; apply elem_of_nil in Hin|].
  rewrite charts_run.
  destruct (has_column "age" df); [destruct (sort_values "age" df) as [sorted|e] eqn:Hs|];
    simpl; intros fig Hin.
  - apply elem_of_cons in Hin as [->|Hin]; [done|by apply Hlater].
  - by apply elem_of_nil in Hin.
  - by apply Hlater.
Qed.

Lemma age_sort_leaves_group_witness :
  same_cluster_df Sample.augmented (Some (VInt 0)) = Ok Sample.group_0
  ∧ sort_values "age" Sample.group_0 = Ok Sample.group_0_by_age
  ∧ Sample.group_0_by_age ≠ Sample.group_0
  ∧ map fig_x (figures (present Sample.explorers Sample.augmented (Some (VInt 0)) no_caches).2)
    = ["age"; "gender"]
  ∧ ∀ fig, fig ∈ figures (present Sample.explorers Sample.augmented (Some (VInt 0)) no_caches).2 →
      if bool_decide (fig_x fig = "age")
      then sort_values "age" Sample.group_0 = Ok (fig_data fig)
      else fig_data fig = Sample.group_0.
Proof.
  split; [reflexivity|]. split; [reflexivity|]. split; [discriminate|].
  split; [reflexivity|].
  apply (age_sort_leaves_group Sample.explorers Sample.augmented Sample.group_0
           (Some (VInt 0)) no_caches).
  reflexivity.
Defined.

(** ** Name and description of the predicted cluster *)

(** C2, as the code has it.  The page opens with the header "Najbliżej Ci
    do grupy: " followed by the resolved name, then the resolved
    description.  When the string form of the id is a key of the metadata,
    the name and the description are those of the entry where the entry
    has the field; an entry without a name gives "Klaster " followed by the
    id, an entry without a description gives the short no-description
    text.  When the key is absent the name is "Klaster " followed by the id
    and the description is the long fallback text. *)
Theorem cluster_label_resolution (cluster_meta : Meta) (all_df : DataFrame) (id : cell)
    (c : Caches) :
  (present cluster_meta all_df id c).2 !! 0%nat
  = Some (StHeader ("Najbliżej Ci do grupy: " +:+ cluster_name cluster_meta id))
  ∧ (present cluster_meta all_df id c).2 !! 1%nat
    = Some (StMarkdown (cluster_desc cluster_meta id))
  ∧ (∀ entry, cluster_meta !! py_str id = Some entry →
       (∀ name, entry !! "name" = Some name → cluster_name cluster_meta id = name)
       ∧ (entry !! "name" = None →
          cluster_name cluster_meta id = "Klaster " +:+ py_str id)
       ∧ (∀ description, entry !! "description" = Some description →
            cluster_desc cluster_meta id = description)
       ∧ (entry !! "description" = None →
          cluster_desc cluster_meta id = "Brak opisu dla tego klastra."))
  ∧ (cluster_meta !! py_str id = None →
       cluster_name cluster_meta id = "Klaster " +:+ py_str id
       ∧ cluster_desc cluster_meta id
         = "Brak opisu dla tego klastra. Uzupełnij plik cfg/nazwy_klastrow_4.json.").
Proof.
  split; [|split; [|split]].
  - rewrite present_run. cbv zeta.
    destruct (same_cluster_df all_df id) as [df|e]; [|done].
    destruct (df_empty df); [done|]. by destruct (charts df c) as [[o c'] out].
  - rewrite present_run. cbv zeta.
    destruct (same_cluster_df all_df id) as [df|e]; [|done].
    destruct (df_empty df); [done|]. by destruct (charts df c) as [[o c'] out].
  - intros entry Hentry.
    unfold cluster_name, cluster_desc, predicted_cluster_id_str. rewrite Hentry.
    repeat split.
    + by intros name ->.
    + by intros ->.
    + by intros description ->.
    + by intros ->.
  - intros Hnone.
    unfold cluster_name, cluster_desc, predicted_cluster_id_str. by rewrite Hnone.
Qed.

Lemma cluster_label_resolution_witness :
  Sample.explorers !! py_str (Some (VInt 0))
  = Some {[ "name" := "Explorers"; "description" := "Curious and active." ]}
  ∧ (present Sample.explorers Sample.augmented (Some (VInt 0)) no_caches).2 !! 0%nat
    = Some (StHeader "Najbliżej Ci do grupy: Explorers")
  ∧ (present Sample.explorers Sample.augmented (Some (VInt 0)) no_caches).2 !! 1%nat
    = Some (StMarkdown "Curious and active.")
  ∧ cluster_name Sample.explorers (Some (VInt 0)) = "Explorers"
  ∧ cluster_desc Sample.explorers (Some (VInt 0)) = "Curious and active."
  ∧ Sample.explorers !! py_str (Some (VInt 5)) = None
  ∧ cluster_name Sample.explorers (Some (VInt 5)) = "Klaster 5".
Proof.
  pose proof (cluster_label_resolution Sample.explorers Sample.augmented
                (Some (VInt 0)) no_caches) as (H0 & H1 & Hentry & _).
  pose proof (cluster_label_resolution Sample.explorers Sample.augmented
                (Some (VInt 5)) no_caches) as (_ & _ & _ & Habsent).
  split; [reflexivity|]. split; [exact H0|]. split; [exact H1|].
  destruct (Hentry _ eq_refl) as (Hname & _ & Hdesc & _).
  split; [apply Hname; reflexivity|]. split; [apply Hdesc; reflexivity|].
  split; [reflexivity|]. apply (Habsent eq_refl).
Defined.

(** C2 as worded fails where an entry has no name: the default is then
    "Klaster 0", not "Cluster 0". *)
Lemma missing_name_default_is_not_Cluster :
  Sample.bare_entry !! py_str (Some (VInt 0)) = Some ∅
  ∧ (∅ : gmap string string) !! "name" = None
  ∧ cluster_name Sample.bare_entry (Some (VInt 0)) = "Klaster 0"
  ∧ cluster_name Sample.bare_entry (Some (VInt 0)) ≠ "Cluster " +:+ py_str (Some (VInt 0)).
Proof. repeat split; vm_compute; done. Qed.

(** ** Representation of the cluster id on its two paths *)

Lemma py_eq_str (a : cell) (s : string) :
  py_eq a (Some (VStr s)) = bool_decide (a = Some (VStr s)).
Proof.
  destruct a as [[x|x]|]; simpl; [done| |done].
  destruct (decide (x = s)) as [->|Hne].
  - by rewrite !bool_decide_eq_true_2.
  - rewrite !bool_decide_eq_false_2; [done| |done]. by intros [= ?].
Qed.

Lemma count_rows_ext (p q : list cell → bool) (l : list (list cell)) :
  (∀ r, p r = q r) → count_rows p l = count_rows q l.
Proof.
  intros Hpq. induction l as [|r l IH]; [done|]. simpl. by rewrite Hpq, IH.
Qed.



(** ** The model signature *)

Lemma has_colon_pretty_N_go (x : N) (s : string) :
  has_colon (pretty_N_go x s) = has_colon s.
Proof.
  revert s. induction (N.lt_wf_0 x) as [x _ IH]. intros s.
  destruct (decide (x = 0)%N) as [->|Hx].
  - by rewrite pretty_N_go_0.
  - rewrite pretty_N_go_step by lia.
    rewrite IH by (apply N.div_lt; lia).
    simpl. rewrite bool_decide_eq_false_2; [done|].
    unfold pretty_N_char. by repeat case_match.
Qed.

Lemma has_colon_pretty_N (x : N) : has_colon (pretty x) = false.
Proof.
  unfold pretty, pretty_N. case_decide; [done|]. apply has_colon_pretty_N_go.
Qed.

Lemma has_colon_pretty_Z (z : Z) : has_colon (pretty z) = false.
Proof.
  destruct z as [|p|p]; [done|apply has_colon_pretty_N|].
  unfold pretty, pretty_Z. simpl. apply has_colon_pretty_N.
Qed.

Lemma append_nil_l (x : string) : "" +:+ x = x.
Proof. done. Qed.

Lemma append_cons_l (a : ascii) (s x : string) : String a s +:+ x = String a (s +:+ x).
Proof. done. Qed.

Ltac norm_append :=
  repeat (rewrite append_nil_l in * || rewrite append_cons_l in * ).

Lemma append_inj_l (p x y : string) : p +:+ x = p +:+ y → x = y.
Proof.
  induction p as [|a p IH]; norm_append; [done|].
  intros [= H]. by apply IH.
Qed.

(** Two texts with a colon after a colon-free head agree only when heads
    and tails agree. *)
Lemma colon_split (a a' b b' : string) :
  has_colon a = false → has_colon a' = false →
  a +:+ ":" +:+ b = a' +:+ ":" +:+ b' → a = a' ∧ b = b'.
Proof.
  revert a'. induction a as [|x a IH]; intros [|x' a']; norm_append; simpl.
  - intros _ _ [= ->]. done.
  - intros _ [Hx _]%orb_false_elim [= <- _]. by apply bool_decide_eq_false in Hx.
  - intros [Hx _]%orb_false_elim _ [= -> _]. by apply bool_decide_eq_false in Hx.
  - intros [_ Ha]%orb_false_elim [_ Ha']%orb_false_elim [= -> H].
    destruct (IH _ Ha Ha' H) as [-> ->]. done.
Qed.

Lemma signature_of_inj (model_name : string) (s1 s2 : stat_result) :
  signature_of model_name s1 = signature_of model_name s2 ↔
  st_mtime_ns s1 = st_mtime_ns s2 ∧ st_size s1 = st_size s2.
Proof.
  unfold signature_of. split.
  - intros H%append_inj_l. norm_append. injection H as H.
    apply colon_split in H as [Hm Hs]; [|apply has_colon_pretty_Z..].
    split; by apply (inj pretty).
  - by intros [-> ->].
Qed.

Lemma get_model_signature_run (env : Env) (model_name : string) :
  get_model_signature env model_name
  = match models_path_with_suffix env model_name ".pkl" with
    | Ok pkl_path =>
        match path_stat env pkl_path with
        | Ok stt => Ok (signature_of model_name stt)
        | Raise _ => Ok model_name
        end
    | Raise _ => Ok model_name
    end.
Proof.
  unfold get_model_signature, try_except.
  destruct (models_path_with_suffix env model_name ".pkl") as [p|e]; [|done].
  simpl. by destruct (path_stat env p).
Qed.

(** C6. With an artifact that can be stat'ed, the signature is the model
    name, the modification time in nanoseconds and the size in bytes,
    joined by colons; the signatures of two calls are the same text when
    both the time and the size are the same and differ as soon as one of
    the two differs.  When [stat] fails the signature is the bare name. *)
Theorem signature_tracks_mtime_and_size (env1 env2 : Env) (model_name pkl_path : string)
    (stt1 stt2 : stat_result) :
  models_path_with_suffix env1 model_name ".pkl" = Ok pkl_path →
  models_path_with_suffix env2 model_name ".pkl" = Ok pkl_path →
  path_stat env1 pkl_path = Ok stt1 →
  (path_stat env2 pkl_path = Ok stt2 →
     get_model_signature env1 model_name = Ok (signature_of model_name stt1)
     ∧ (get_model_signature env1 model_name = get_model_signature env2 model_name
        ↔ st_mtime_ns stt1 = st_mtime_ns stt2 ∧ st_size stt1 = st_size stt2))
  ∧ (∀ e, path_stat env2 pkl_path = Raise e →
       get_model_signature env2 model_name = Ok model_name).
Proof.
  intros Hp1 Hp2 Hs1. split.
  - intros Hs2. rewrite !get_model_signature_run, Hp1, Hp2, Hs1, Hs2.
    split; [done|]. rewrite <- signature_of_inj. split; [by intros [= ?]|by intros ->].
  - intros e He. by rewrite get_model_signature_run, Hp2, He.
Qed.

Lemma signature_tracks_mtime_and_size_witness :
  get_model_signature Sample.world MODEL_NAME = Ok "model_4:1700000000000000000:1024"
  ∧ (get_model_signature Sample.world MODEL_NAME
     = get_model_signature Sample.world_new_model MODEL_NAME
     ↔ 1700000000000000000 = 1700000000000000000 ∧ 1024 = 2048)
  ∧ get_model_signature Sample.world_locked_model MODEL_NAME = Ok "model_4".
Proof.
  pose proof (signature_tracks_mtime_and_size Sample.world Sample.world_new_model
                MODEL_NAME "models/model_4.pkl"
                {| st_mtime_ns := 1700000000000000000; st_size := 1024 |}
                {| st_mtime_ns := 1700000000000000000; st_size := 2048 |}
                eq_refl eq_refl eq_refl) as [Hsame _].
  pose proof (signature_tracks_mtime_and_size Sample.world Sample.world_locked_model
                MODEL_NAME "models/model_4.pkl"
                {| st_mtime_ns := 1700000000000000000; st_size := 1024 |}
                {| st_mtime_ns := 0; st_size := 0 |}
                eq_refl eq_refl eq_refl) as [_ Hfail].
  destruct (Hsame eq_refl) as [Hsig Hiff].
  split; [exact Hsig|]. split; [exact Hiff|].
  exact (Hfail PermissionError eq_refl).
Defined.

(** C9. [get_model_signature] returns a string whatever the path
    construction and [stat] do: any exception of either, whichever it is,
    is caught and gives the bare model name; otherwise the result is the
    signature of the stat result. *)
Theorem get_model_signature_total (env : Env) (model_name : string) :
  (∃ s, get_model_signature env model_name = Ok s)
  ∧ (get_model_signature env model_name = Ok model_name
     ∨ ∃ pkl_path stt,
         models_path_with_suffix env model_name ".pkl" = Ok pkl_path
         ∧ path_stat env pkl_path = Ok stt
         ∧ get_model_signature env model_name = Ok (signature_of model_name stt))
  ∧ (∀ e, models_path_with_suffix env model_name ".pkl" = Raise e →
       get_model_signature env model_name = Ok model_name)
  ∧ (∀ pkl_path e,
       models_path_with_suffix env model_name ".pkl" = Ok pkl_path →
       path_stat env pkl_path = Raise e →
       get_model_signature env model_name = Ok model_name).
Proof.
  rewrite get_model_signature_run.
  destruct (models_path_with_suffix env model_name ".pkl") as [p|e] eqn:Hp.
  - destruct (path_stat env p) as [stt|e] eqn:Hs.
    + split; [eauto|]. split; [right; eauto|]. split; [done|].
      intros p' e [= <-]. by rewrite Hs.
    + split; [eauto|]. split; [by left|]. split; [done|]. done.
  - split; [eauto|]. split; [by left|]. split; done.
Qed.

Lemma get_model_signature_total_witness :
  get_model_signature Sample.world_bad_name MODEL_NAME = Ok MODEL_NAME
  ∧ get_model_signature Sample.world_locked_model MODEL_NAME = Ok MODEL_NAME.
Proof.
  split.
  - apply (get_model_signature_total Sample.world_bad_name MODEL_NAME) with (e := ValueError).
    reflexivity.
  - destruct (get_model_signature_total Sample.world_locked_model MODEL_NAME)
      as (_ & _ & _ & Hstat).
    exact (Hstat "models/model_4.pkl" PermissionError eq_refl eq_refl).
Defined.

(** ** Cached functions *)

Lemma cached_hit {A} (lookup : Caches → option A) (store : A → Caches → Caches)
    (body : App A) (c : Caches) (a : A) :
  lookup c = Some a → cached lookup store body c = (Done a, c, []).
Proof. unfold cached. by intros ->. Qed.

Lemma cached_miss {A} (lookup : Caches → option A) (store : A → Caches → Caches)
    (body : App A) (c : Caches) :
  lookup c = None →
  cached lookup store body c
  = match body c with
    | (Done a, c', out) => (Done a, store a c', out)
    | r => r
    end.
Proof. unfold cached. by intros ->. Qed.

Lemma get_cluster_names_and_descriptions_body_run (env : Env) (json_path : string)
    (c : Caches) :
  get_cluster_names_and_descriptions_body env json_path c
  = if path_exists env json_path
    then match json_load env json_path with
         | Ok m => (Done m, c, [])
         | Raise e => (Raised e, c, [])
         end
    else (Stopped, c, [StError (NO_METADATA_FILE json_path)]).
Proof.
  unfold get_cluster_names_and_descriptions_body, st_error.
  destruct (path_exists env json_path); simpl negb.
  - rewrite run_when_false. unfold lift. by destruct (json_load env json_path).
  - by rewrite run_stop_after.
Qed.

Lemma get_all_participants_body_run (env : Env) (data_path : string) (model : Model)
    (model_sig : string) (c : Caches) :
  get_all_participants_body env data_path model model_sig c
  = if path_exists env data_path
    then match read_csv env data_path with
         | Ok all_df =>
             match predict_model model all_df with
             | Ok df_with_clusters =>
                 if has_column "Cluster" df_with_clusters
                 then (Done df_with_clusters, c, [])
                 else (Stopped, c, [StError NO_CLUSTER_IN_BULK])
             | Raise e => (Raised e, c, [])
             end
         | Raise e => (Raised e, c, [])
         end
    else (Stopped, c, [StError (NO_DATA_FILE data_path)]).
Proof.
  unfold get_all_participants_body, st_error.
  destruct (path_exists env data_path); simpl negb.
  - rewrite run_when_false.
    destruct (read_csv env data_path) as [all_df|e]; [|done].
    rewrite run_lift_Ok.
    destruct (predict_model model all_df) as [df|e]; [|done].
    rewrite run_lift_Ok.
    destruct (has_column "Cluster" df); simpl negb.
    + by rewrite run_when_false.
    + by rewrite run_stop_after.
  - by rewrite run_stop_after.
Qed.

Lemma get_model_run (env : Env) (model_name : string) (c : Caches) :
  ∃ r, get_model env model_name c = (r, match r with
                                         | Done m =>
                                             match model_cache c !! model_name with
                                             | Some _ => c
                                             | None =>
                                                 {| model_cache := <[model_name := m]> (model_cache c);
                                                    meta_cache := meta_cache c;
                                                    data_cache := data_cache c |}
                                             end
                                         | _ => c
                                         end, [])
       ∧ r ≠ Stopped.
Proof.
  unfold get_model, cached, get_model_body, lift.
  destruct (model_cache c !! model_name) as [m|]; [by exists (Done m)|].
  destruct (models_path_with_suffix env model_name "") as [p|e]; simpl.
  - destruct (load_model env p) as [m|e]; [by exists (Done m)|by exists (Raised e)].
  - by exists (Raised e).
Qed.

(** ** The script as a pipeline *)

Lemma sidebar_run (form : Form) (c : Caches) :
  sidebar form c = (Done (person_df form), c, sidebar_elements).
Proof. done. Qed.

(** The script, stage by stage.  A stage that stops or raises ends the
    run with what is on the page so far. *)
Lemma app_run (env : Env) (form : Form) (c : Caches) :
  app env form c
  = match get_model env MODEL_NAME c with
    | (Done model, c1, o1) =>
        match get_model_signature env MODEL_NAME with
        | Ok model_sig =>
            match get_cluster_names_and_descriptions env CLUSTERS_JSON c1 with
            | (Done cluster_meta, c2, o2) =>
                match get_all_participants env DATA_FILE model model_sig c2 with
                | (Done all_df, c3, o3) =>
                    match predict_model model (person_df form) with
                    | Ok pred =>
                        if has_column "Cluster" pred
                        then match getitem_column pred "Cluster" ≫= values_0 with
                             | Ok id =>
                                 let '(o, c4, o4) := present cluster_meta all_df id c3 in
                                 (o, c4, sidebar_elements ++ o1 ++ o2 ++ o3 ++ o4)
                             | Raise e => (Raised e, c3, sidebar_elements ++ o1 ++ o2 ++ o3)
                             end
                        else (Stopped, c3,
                              sidebar_elements ++ o1 ++ o2 ++ o3
                              ++ [StError NO_CLUSTER_IN_PREDICTION])
                    | Raise e => (Raised e, c3, sidebar_elements ++ o1 ++ o2 ++ o3)
                    end
                | (Stopped, c3, o3) => (Stopped, c3, sidebar_elements ++ o1 ++ o2 ++ o3)
                | (Raised e, c3, o3) => (Raised e, c3, sidebar_elements ++ o1 ++ o2 ++ o3)
                end
            | (Stopped, c2, o2) => (Stopped, c2, sidebar_elements ++ o1 ++ o2)
            | (Raised e, c2, o2) => (Raised e, c2, sidebar_elements ++ o1 ++ o2)
            end
        | Raise e => (Raised e, c1, sidebar_elements ++ o1)
        end
    | (Stopped, c1, o1) => (Stopped, c1, sidebar_elements ++ o1)
    | (Raised e, c1, o1) => (Raised e, c1, sidebar_elements ++ o1)
    end.
Proof.
  unfold app. rewrite run_bind, sidebar_run.
  rewrite run_bind.
  destruct (get_model env MODEL_NAME c) as [[[model| |e] c1] o1]; [|done..].
  destruct (get_model_signature env MODEL_NAME) as [model_sig|e].
  2:{ rewrite run_lift_Raise. by rewrite app_nil_r. }
  rewrite run_lift_Ok, run_bind.
  destruct (get_cluster_names_and_descriptions env CLUSTERS_JSON c1)
    as [[[cluster_meta| |e] c2] o2]; [|done..].
  rewrite run_bind.
  destruct (get_all_participants env DATA_FILE model model_sig c2)
    as [[[all_df| |e] c3] o3]; [|by rewrite ?app_nil_r..].
  destruct (predict_model model (person_df form)) as [pred|e].
  2:{ rewrite run_lift_Raise. by rewrite !app_nil_r. }
  rewrite run_lift_Ok.
  destruct (has_column "Cluster" pred); simpl negb.
  - rewrite run_when_false.
    destruct (getitem_column pred "Cluster" ≫= values_0) as [id|e].
    + rewrite run_lift_Ok.
      by destruct (present cluster_meta all_df id c3) as [[o c4] o4].
    + rewrite run_lift_Raise. by rewrite !app_nil_r.
  - unfold st_error. by rewrite run_stop_after.
Qed.

Lemma get_cluster_names_and_descriptions_run (env : Env) (json_path : string)
    (c : Caches) :
  get_cluster_names_and_descriptions env json_path c
  = match meta_cache c !! json_path with
    | Some m => (Done m, c, [])
    | None =>
        if path_exists env json_path
        then match json_load env json_path with
             | Ok m => (Done m, {| model_cache := model_cache c;
                                   meta_cache := <[json_path := m]> (meta_cache c);
                                   data_cache := data_cache c |}, [])
             | Raise e => (Raised e, c, [])
             end
        else (Stopped, c, [StError (NO_METADATA_FILE json_path)])
    end.
Proof.
  unfold get_cluster_names_and_descriptions, cached.
  rewrite get_cluster_names_and_descriptions_body_run.
  destruct (meta_cache c !! json_path); [done|].
  destruct (path_exists env json_path); [|done].
  by destruct (json_load env json_path).
Qed.

Lemma get_all_participants_run (env : Env) (data_path : string) (model : Model)
    (model_sig : string) (c : Caches) :
  get_all_participants env data_path model model_sig c
  = match data_cache c !! (data_path, model_sig) with
    | Some df => (Done df, c, [])
    | None =>
        match get_all_participants_body env data_path model model_sig c with
        | (Done df, c', out) => (Done df, store_participants data_path model_sig df c', out)
        | r => r
        end
    end.
Proof. done. Qed.

(** The presentation shows no error, and when it stops the last element on
    the page is the message for an empty group. *)
Lemma present_stop (cluster_meta : Meta) (all_df : DataFrame) (id : cell) (c : Caches) :
  (∀ s, StError s ∉ (present cluster_meta all_df id c).2)
  ∧ ((present cluster_meta all_df id c).1.1 = Stopped →
     ∃ before, (present cluster_meta all_df id c).2 = before ++ [StInfo NO_PEERS]).
Proof.
  rewrite present_run. cbv zeta.
  destruct (same_cluster_df all_df id) as [df|e].
  - destruct (df_empty df).
    + split.
      * intros s Hin. simpl in Hin. rewrite !elem_of_cons in Hin.
        destruct Hin as [?|[?|[?|[?|Hin]]]]; try done. by apply elem_of_nil in Hin.
      * intros _. by eexists [_; _; _].
    + destruct (charts df c) as [[o c'] out] eqn:Hch.
      destruct (charts_only_figures _ _ _ _ _ Hch) as [-> Hfig].
      assert (o ≠ Stopped) as Ho.
      { rewrite charts_run in Hch.
        destruct (has_column "age" df); [destruct (sort_values "age" df)|];
          by injection Hch as <- _. }
      split; [|done].
      intros s Hin. simpl in Hin. rewrite <- Hfig in Hin.
      rewrite !elem_of_cons, list_elem_of_fmap in Hin.
      destruct Hin as [?|[?|[?|(fig & ? & _)]]]; done.
  - split; [|done].
    intros s Hin. simpl in Hin. rewrite !elem_of_cons in Hin.
    destruct Hin as [?|[?|Hin]]; try done. by apply elem_of_nil in Hin.
Qed.

Lemma sidebar_no_error (s : string) : StError s ∉ sidebar_elements.
Proof.
  unfold sidebar_elements. rewrite !not_elem_of_cons. repeat split; try done.
  apply not_elem_of_nil.
Qed.

Lemma get_model_signature_Ok (env : Env) (model_name : string) :
  ∃ s, get_model_signature env model_name = Ok s.
Proof.
  rewrite get_model_signature_run.
  destruct (models_path_with_suffix env model_name ".pkl") as [p|]; [|eauto].
  destruct (path_stat env p); eauto.
Qed.

(** What a stage leaves on the page, by the way it ends. *)
Lemma metadata_stage (env : Env) (json_path : string) (c c' : Caches)
    (r : outcome Meta) (o : list Element) :
  get_cluster_names_and_descriptions env json_path c = (r, c', o) →
  match r with
  | Stopped =>
      o = [StError (NO_METADATA_FILE json_path)]
      ∧ meta_cache c !! json_path = None ∧ path_exists env json_path = false
  | _ => o = []
  end.
Proof.
  rewrite get_cluster_names_and_descriptions_run.
  destruct (meta_cache c !! json_path); [by intros [= <- _ <-]|].
  destruct (path_exists env json_path); [|by intros [= <- _ <-]].
  destruct (json_load env json_path); by intros [= <- _ <-].
Qed.

Lemma participants_stage (env : Env) (data_path : string) (model : Model)
    (model_sig : string) (c c' : Caches) (r : outcome DataFrame) (o : list Element) :
  get_all_participants env data_path model model_sig c = (r, c', o) →
  match r with
  | Stopped =>
      data_cache c !! (data_path, model_sig) = None
      ∧ ((path_exists env data_path = false ∧ o = [StError (NO_DATA_FILE data_path)])
         ∨ (path_exists env data_path = true
            ∧ ∃ all_df df,
                read_csv env data_path = Ok all_df
                ∧ predict_model model all_df = Ok df
                ∧ has_column "Cluster" df = false
                ∧ o = [StError NO_CLUSTER_IN_BULK]))
  | _ => o = []
  end.
Proof.
  rewrite get_all_participants_run, get_all_participants_body_run.
  destruct (data_cache c !! (data_path, model_sig)); [by intros [= <- _ <-]|].
  destruct (path_exists env data_path); [|intros [= <- _ <-]; auto].
  destruct (read_csv env data_path) as [all_df|e] eqn:Hcsv; [|by intros [= <- _ <-]].
  destruct (predict_model model all_df) as [df|e] eqn:Hpred; [|by intros [= <- _ <-]].
  destruct (has_column "Cluster" df) eqn:Hcol; intros [= <- _ <-]; [done|].
  split; [done|]. right. split; [done|]. by exists all_df, df.
Qed.

(** Every run of the script either was halted on one of the four errors,
    which is then the last and the only error on the page, or shows no
    error at all and, when it stopped, stopped on the message for an empty
    group. *)
Lemma app_classified (env : Env) (form : Form) (c : Caches) :
  (∃ s before,
      halt_cause env form c s
      ∧ (app env form c).1.1 = Stopped
      ∧ (app env form c).2 = before ++ [StError s]
      ∧ ∀ s', StError s' ∉ before)
  ∨ ((∀ s, StError s ∉ (app env form c).2)
     ∧ ((app env form c).1.1 = Stopped →
        ∃ before, (app env form c).2 = before ++ [StInfo NO_PEERS])).
Proof.
  destruct (app env form c) as [[o c'] out] eqn:Happ. rewrite app_run in Happ. simpl.
  destruct (get_model_run env MODEL_NAME c) as (r1 & Hm & Hns).
  destruct (get_model env MODEL_NAME c) as [[r1' c1] o1] eqn:Hmodel.
  injection Hm as -> _ ->.
  destruct r1 as [model| |e]; [|done|].
  2:{ injection Happ as <- _ <-. right. rewrite ?app_nil_r.
      split; [apply sidebar_no_error|done]. }
  destruct (get_model_signature_Ok env MODEL_NAME) as [model_sig Hsig].
  rewrite Hsig in Happ.
  destruct (get_cluster_names_and_descriptions env CLUSTERS_JSON c1)
    as [[r2 c2] o2] eqn:Hmeta.
  pose proof (metadata_stage _ _ _ _ _ _ Hmeta) as Ho2.
  destruct r2 as [cluster_meta| |e]; simpl in Ho2.
  2:{ destruct Ho2 as (-> & Hmiss & Hex). injection Happ as <- _ <-. left.
      exists (NO_METADATA_FILE CLUSTERS_JSON), sidebar_elements.
      split; [by eapply halt_no_metadata_file|]. split; [done|]. split; [done|].
      apply sidebar_no_error. }
  2:{ subst o2. injection Happ as <- _ <-. right. rewrite ?app_nil_r.
      split; [apply sidebar_no_error|done]. }
  subst o2.
  destruct (get_all_participants env DATA_FILE model model_sig c2)
    as [[r3 c3] o3] eqn:Hdata.
  pose proof (participants_stage _ _ _ _ _ _ _ _ Hdata) as Ho3.
  destruct r3 as [all_df| |e]; simpl in Ho3.
  2:{ destruct Ho3 as [Hmiss [[Hex ->]|(Hex & d & df & Hcsv & Hpred & Hcol & ->)]];
        injection Happ as <- _ <-; left.
      - exists (NO_DATA_FILE DATA_FILE), sidebar_elements.
        split; [by eapply halt_no_data_file|]. split; [done|]. split; [done|].
        apply sidebar_no_error.
      - exists NO_CLUSTER_IN_BULK, sidebar_elements.
        split; [by eapply halt_no_cluster_in_bulk|]. split; [done|]. split; [done|].
        apply sidebar_no_error. }
  2:{ subst o3. injection Happ as <- _ <-. right. rewrite ?app_nil_r.
      split; [apply sidebar_no_error|done]. }
  subst o3.
  destruct (predict_model model (person_df form)) as [pred|e] eqn:Hpred.
  2:{ injection Happ as <- _ <-. right. rewrite ?app_nil_r.
      split; [apply sidebar_no_error|done]. }
  destruct (has_column "Cluster" pred) eqn:Hcol.
  2:{ injection Happ as <- _ <-. left.
      exists NO_CLUSTER_IN_PREDICTION, sidebar_elements.
      split; [by eapply halt_no_cluster_in_prediction|]. split; [done|]. split; [done|].
      apply sidebar_no_error. }
  destruct (getitem_column pred "Cluster" ≫= values_0) as [id|e].
  2:{ injection Happ as <- _ <-. right. rewrite ?app_nil_r.
      split; [apply sidebar_no_error|done]. }
  destruct (present_stop cluster_meta all_df id c3) as [Hnoerr Hstop].
  destruct (present cluster_meta all_df id c3) as [[o' c4] o4].
  injection Happ as <- _ <-. right. simpl in *. split.
  - intros s Hin. change (StError s ∈ sidebar_elements ++ o4) in Hin.
    apply elem_of_app in Hin as [Hin|Hin];
      [by apply (sidebar_no_error s)|by apply (Hnoerr s)].
  - intros Ho. destruct (Hstop Ho) as [before ->].
    exists (sidebar_elements ++ before). by rewrite <- app_assoc.
Qed.

Lemma halt_cause_halts (env : Env) (form : Form) (c : Caches) (s : string) :
  halt_cause env form c s → halted_with s (app env form c).
Proof.
  unfold halted_with. rewrite app_run.
  destruct 1 as [model c1 o1 Hmodel Hmiss Hex
                |model c1 o1 model_sig cluster_meta c2 o2 Hmodel Hsig Hmeta Hmiss Hex
                |model c1 o1 model_sig cluster_meta c2 o2 all_df df Hmodel Hsig Hmeta Hmiss
                   Hex Hcsv Hpred Hcol
                |model c1 o1 model_sig cluster_meta c2 o2 all_df c3 o3 pred Hmodel Hsig Hmeta
                   Hdata Hpred Hcol];
    rewrite Hmodel.
  - destruct (get_model_signature_Ok env MODEL_NAME) as [model_sig ->].
    rewrite get_cluster_names_and_descriptions_run, Hmiss, Hex.
    split; [done|]. exists (sidebar_elements ++ o1). by rewrite <- app_assoc.
  - rewrite Hsig, Hmeta, get_all_participants_run, Hmiss,
      get_all_participants_body_run, Hex.
    split; [done|]. exists (sidebar_elements ++ o1 ++ o2). by rewrite <- !app_assoc.
  - rewrite Hsig, Hmeta, get_all_participants_run, Hmiss,
      get_all_participants_body_run, Hex, Hcsv, Hpred, Hcol.
    split; [done|]. exists (sidebar_elements ++ o1 ++ o2). by rewrite <- !app_assoc.
  - rewrite Hsig, Hmeta, Hdata, Hpred, Hcol.
    split; [done|]. exists (sidebar_elements ++ o1 ++ o2 ++ o3). by rewrite <- !app_assoc.
Qed.

(** ** Fatal halts *)

(** C4. The script halts on an error at four points and nowhere else: the
    metadata file does not exist, the data file does not exist, the bulk
    prediction has no [Cluster] column, the prediction for the user has no
    [Cluster] column.  A halted run ends by [st.stop()] with the error as
    the last element of the page, and an error never appears otherwise;
    the one other stop is the message for an empty group.  When the test
    in front of a halt fails, the function goes on: it returns what the
    library calls after the test return. *)
Theorem four_fatal_halts (env : Env) (form : Form) (c : Caches) :
  (∀ s, halted_with s (app env form c) ↔ halt_cause env form c s)
  ∧ (∀ s, StError s ∈ (app env form c).2 → halted_with s (app env form c))
  ∧ ((app env form c).1.1 = Stopped →
       (∃ s, halted_with s (app env form c))
       ∨ ∃ before, (app env form c).2 = before ++ [StInfo NO_PEERS])
  ∧ (∀ json_path c0,
       get_cluster_names_and_descriptions_body env json_path c0
       = if path_exists env json_path
         then lift (json_load env json_path) c0
         else (Stopped, c0, [StError (NO_METADATA_FILE json_path)]))
  ∧ (∀ data_path model model_sig c0,
       get_all_participants_body env data_path model model_sig c0
       = if path_exists env data_path
         then match read_csv env data_path ≫= predict_model model with
              | Ok df_with_clusters =>
                  if has_column "Cluster" df_with_clusters
                  then (Done df_with_clusters, c0, [])
                  else (Stopped, c0, [StError NO_CLUSTER_IN_BULK])
              | Raise e => (Raised e, c0, [])
              end
         else (Stopped, c0, [StError (NO_DATA_FILE data_path)]))
  ∧ (∀ model c1 o1 model_sig cluster_meta c2 o2 all_df c3 o3 pred,
       get_model env MODEL_NAME c = (Done model, c1, o1) →
       get_model_signature env MODEL_NAME = Ok model_sig →
       get_cluster_names_and_descriptions env CLUSTERS_JSON c1 = (Done cluster_meta, c2, o2) →
       get_all_participants env DATA_FILE model model_sig c2 = (Done all_df, c3, o3) →
       predict_model model (person_df form) = Ok pred →
       app env form c
       = if has_column "Cluster" pred
         then let '(o, c4, o4) :=
                (lift (getitem_column pred "Cluster" ≫= values_0)
                   ≫= present cluster_meta all_df) c3 in
              (o, c4, sidebar_elements ++ o1 ++ o2 ++ o3 ++ o4)
         else (Stopped, c3,
               sidebar_elements ++ o1 ++ o2 ++ o3 ++ [StError NO_CLUSTER_IN_PREDICTION])).
Proof.
  split; [|split; [|split; [|split; [|split]]]].
  - intros s. split; [|apply halt_cause_halts].
    intros [Hstop [before Hout]].
    destruct (app_classified env form c)
      as [(s0 & before0 & Hcause & _ & Hout0 & _)|[Hnone _]].
    + rewrite Hout0 in Hout. apply app_inj_tail in Hout as [_ [= ->]]. done.
    + exfalso. apply (Hnone s). rewrite Hout. apply elem_of_app. right. by left.
  - intros s Hin.
    destruct (app_classified env form c)
      as [(s0 & before0 & Hcause & _ & Hout0 & Hbefore)|[Hnone _]].
    + rewrite Hout0 in Hin. apply elem_of_app in Hin as [Hin|Hin].
      * by apply Hbefore in Hin.
      * apply list_elem_of_singleton in Hin as [= ->]. by apply halt_cause_halts.
    + by apply Hnone in Hin.
  - intros Hstop.
    destruct (app_classified env form c)
      as [(s0 & before0 & Hcause & _ & Hout0 & _)|[_ Hinfo]].
    + left. exists s0. by apply halt_cause_halts.
    + right. by apply Hinfo.
  - intros json_path c0. rewrite get_cluster_names_and_descriptions_body_run.
    unfold lift. by destruct (path_exists env json_path), (json_load env json_path).
  - intros data_path model model_sig c0. rewrite get_all_participants_body_run.
    destruct (path_exists env data_path); [|done].
    by destruct (read_csv env data_path).
  - intros model c1 o1 model_sig cluster_meta c2 o2 all_df c3 o3 pred
      Hmodel Hsig Hmeta Hdata Hpred.
    rewrite app_run, Hmodel, Hsig, Hmeta, Hdata, Hpred.
    destruct (has_column "Cluster" pred); [|done].
    destruct (getitem_column pred "Cluster" ≫= values_0) as [id|e].
    + by rewrite run_lift_Ok.
    + rewrite run_lift_Raise. by rewrite app_nil_r.
Qed.

Lemma four_fatal_halts_witness :
  halt_cause Sample.world_no_metadata Sample.form no_caches (NO_METADATA_FILE CLUSTERS_JSON)
  ∧ halt_cause Sample.world_no_data Sample.form no_caches (NO_DATA_FILE DATA_FILE)
  ∧ halt_cause (Sample.world_with_model Sample.no_cluster) Sample.form no_caches
      NO_CLUSTER_IN_BULK
  ∧ halted_with NO_CLUSTER_IN_PREDICTION
      (app (Sample.world_with_model Sample.bulk_only) Sample.form no_caches)
  ∧ (app Sample.world Sample.form no_caches).1.1 = Done tt.
Proof.
  split; [|split; [|split; [|split]]].
  - apply (four_fatal_halts Sample.world_no_metadata Sample.form no_caches).
    split; [reflexivity|]. exists sidebar_elements. reflexivity.
  - apply (four_fatal_halts Sample.world_no_data Sample.form no_caches).
    split; [reflexivity|]. exists sidebar_elements. reflexivity.
  - apply (four_fatal_halts (Sample.world_with_model Sample.no_cluster) Sample.form no_caches).
    split; [reflexivity|]. exists sidebar_elements. reflexivity.
  - apply (proj1 (four_fatal_halts (Sample.world_with_model Sample.bulk_only)
                    Sample.form no_caches) NO_CLUSTER_IN_PREDICTION).
    eapply halt_no_cluster_in_prediction; reflexivity.
  - reflexivity.
Defined.

(** ** The cache of the augmented dataset *)

(** C7, as the code has it.  The augmented dataset is cached under the
    pair of data path and model signature.  After a render that computed
    it, a render with the same path and signature is served the stored
    dataset without running [get_all_participants] again, whatever the
    files and the model are by then; the stored dataset is what running
    it again would return when the data file and the answers of the model
    have not changed.  A signature that is not in the cache makes the body
    run again, and replacing the artifact by a file of another size changes
    the signature. *)
Theorem participants_cached_by_path_and_signature (env1 env2 : Env) (data_path : string)
    (m1 m2 : Model) (model_sig : string) (c0 c1 : Caches) (df1 : DataFrame)
    (out1 : list Element) :
  data_cache c0 !! (data_path, model_sig) = None →
  get_all_participants env1 data_path m1 model_sig c0 = (Done df1, c1, out1) →
  get_all_participants_body env1 data_path m1 model_sig c0 = (Done df1, c0, out1)
  ∧ c1 = store_participants data_path model_sig df1 c0
  ∧ get_all_participants env2 data_path m2 model_sig c1 = (Done df1, c1, [])
  ∧ (path_exists env2 data_path = path_exists env1 data_path →
     read_csv env2 data_path = read_csv env1 data_path →
     (∀ df, predict_model m2 df = predict_model m1 df) →
     get_all_participants_body env2 data_path m2 model_sig c1 = (Done df1, c1, []))
  ∧ (∀ model_sig',
       model_sig' ≠ model_sig →
       data_cache c0 !! (data_path, model_sig') = None →
       get_all_participants env2 data_path m2 model_sig' c1
       = match get_all_participants_body env2 data_path m2 model_sig' c1 with
         | (Done df, c', out) => (Done df, store_participants data_path model_sig' df c', out)
         | r => r
         end)
  ∧ (∀ model_name pkl_path1 pkl_path2 stt1 stt2,
       models_path_with_suffix env1 model_name ".pkl" = Ok pkl_path1 →
       models_path_with_suffix env2 model_name ".pkl" = Ok pkl_path2 →
       path_stat env1 pkl_path1 = Ok stt1 →
       path_stat env2 pkl_path2 = Ok stt2 →
       st_size stt1 ≠ st_size stt2 →
       get_model_signature env1 model_name ≠ get_model_signature env2 model_name).
Proof.
  intros Hmiss Hrun.
  rewrite get_all_participants_run, Hmiss in Hrun.
  assert (get_all_participants_body env1 data_path m1 model_sig c0 = (Done df1, c0, out1)
          ∧ c1 = store_participants data_path model_sig df1 c0 ∧ out1 = []) as (Hbody & -> & ->).
  { rewrite get_all_participants_body_run in *.
    destruct (path_exists env1 data_path); [|done].
    destruct (read_csv env1 data_path) as [all_df|]; [|done].
    destruct (predict_model m1 all_df) as [df|]; [|done].
    destruct (has_column "Cluster" df); [|done].
    by injection Hrun as <- <- <-. }
  split; [done|]. split; [done|]. split; [|split; [|split]].
  - rewrite get_all_participants_run. simpl. by rewrite lookup_insert_eq.
  - intros Hex Hcsv Hpred. rewrite get_all_participants_body_run in *.
    rewrite Hex, Hcsv.
    destruct (path_exists env1 data_path); [|done].
    destruct (read_csv env1 data_path) as [all_df|]; [|done].
    rewrite Hpred.
    destruct (predict_model m1 all_df) as [df|]; [|done].
    destruct (has_column "Cluster" df); [|done].
    by injection Hbody as <-.
  - intros model_sig' Hne Hmiss'. rewrite get_all_participants_run. simpl.
    rewrite lookup_insert_ne by congruence. by rewrite Hmiss'.
  - intros model_name p1 p2 stt1 stt2 Hp1 Hp2 Hs1 Hs2 Hsize.
    rewrite !get_model_signature_run, Hp1, Hp2, Hs1, Hs2.
    intros [= Heq]. apply signature_of_inj in Heq as [_ Heq]. done.
Qed.

Lemma participants_cached_by_path_and_signature_witness :
  data_cache no_caches !! (DATA_FILE, Sample.signature) = None
  ∧ get_all_participants Sample.world DATA_FILE Sample.by_age Sample.signature no_caches
    = (Done Sample.augmented,
       store_participants DATA_FILE Sample.signature Sample.augmented no_caches, [])
  ∧ get_all_participants Sample.world_new_model DATA_FILE Sample.by_age Sample.signature
      (store_participants DATA_FILE Sample.signature Sample.augmented no_caches)
    = (Done Sample.augmented,
       store_participants DATA_FILE Sample.signature Sample.augmented no_caches, [])
  ∧ get_all_participants_body Sample.world_new_model DATA_FILE Sample.by_age Sample.signature
      (store_participants DATA_FILE Sample.signature Sample.augmented no_caches)
    = (Done Sample.augmented,
       store_participants DATA_FILE Sample.signature Sample.augmented no_caches, [])
  ∧ get_model_signature Sample.world MODEL_NAME
    ≠ get_model_signature Sample.world_new_model MODEL_NAME.
Proof.
  pose proof (participants_cached_by_path_and_signature Sample.world Sample.world_new_model
                DATA_FILE Sample.by_age Sample.by_age Sample.signature no_caches
                (store_participants DATA_FILE Sample.signature Sample.augmented no_caches)
                Sample.augmented [] eq_refl eq_refl)
    as (_ & _ & Hhit & Hsame & _ & Hsig).
  split; [reflexivity|]. split; [reflexivity|]. split; [exact Hhit|].
  split; [apply Hsame; reflexivity|].
  apply (Hsig MODEL_NAME "models/model_4.pkl" "models/model_4.pkl"
           {| st_mtime_ns := 1700000000000000000; st_size := 1024 |}
           {| st_mtime_ns := 1700000000000000000; st_size := 2048 |});
    [reflexivity..|discriminate].
Defined.

(** C7 as worded fails when the data file changes while the model file
    does not: the second render has the same path and signature and is
    served the four stored rows, where running [get_all_participants]
    again returns five; the page counts three peers instead of four. *)
Lemma cached_participants_can_be_stale :
  get_model_signature Sample.world MODEL_NAME = Ok Sample.signature
  ∧ get_model_signature Sample.world_more_data MODEL_NAME = Ok Sample.signature
  ∧ get_all_participants Sample.world DATA_FILE Sample.by_age Sample.signature no_caches
    = (Done Sample.augmented,
       store_participants DATA_FILE Sample.signature Sample.augmented no_caches, [])
  ∧ get_all_participants Sample.world_more_data DATA_FILE Sample.by_age Sample.signature
      (store_participants DATA_FILE Sample.signature Sample.augmented no_caches)
    = (Done Sample.augmented,
       store_participants DATA_FILE Sample.signature Sample.augmented no_caches, [])
  ∧ get_all_participants_body Sample.world_more_data DATA_FILE Sample.by_age Sample.signature
      (store_participants DATA_FILE Sample.signature Sample.augmented no_caches)
    = (Done Sample.augmented_more,
       store_participants DATA_FILE Sample.signature Sample.augmented no_caches, [])
  ∧ Sample.augmented ≠ Sample.augmented_more
  ∧ (app Sample.world Sample.form no_caches).1.2 = Sample.warm_caches
  ∧ (app Sample.world_more_data Sample.form Sample.warm_caches).2 !! 9%nat
    = Some (StMetric "Liczba osób w Twojej grupie" 3)
  ∧ (app Sample.world_more_data Sample.form no_caches).2 !! 9%nat
    = Some (StMetric "Liczba osób w Twojej grupie" 4).
Proof. repeat split; try reflexivity. discriminate. Qed.

(** ** The cached loaders, call after call *)

Lemma get_model_cases (env : Env) (model_name : string) (c : Caches) :
  get_model env model_name c
  = match model_cache c !! model_name with
    | Some m => (Done m, c, [])
    | None =>
        match (model_path_no_ext ← models_path_with_suffix env model_name "";
               load_model env model_path_no_ext) with
        | Ok m => (Done m, {| model_cache := <[model_name := m]> (model_cache c);
                              meta_cache := meta_cache c;
                              data_cache := data_cache c |}, [])
        | Raise e => (Raised e, c, [])
        end
    end.
Proof.
  unfold get_model, cached, get_model_body, lift.
  destruct (model_cache c !! model_name); [done|].
  by destruct (_ ≫= _).
Qed.

(** X1. Once [get_model] has returned a model, every later call for that
    name returns that model from the cache without loading anything,
    whatever the files are by then.  A load that fails is not cached, and
    [get_model] itself never stops the run nor shows anything. *)
Theorem get_model_loads_once (env1 env2 : Env) (model_name : string) (c c1 : Caches)
    (r : outcome Model) (o : list Element) :
  get_model env1 model_name c = (r, c1, o) →
  o = []
  ∧ match r with
    | Done m =>
        model_cache c1 !! model_name = Some m
        ∧ get_model env2 model_name c1 = (Done m, c1, [])
    | Stopped => False
    | Raised e =>
        c1 = c
        ∧ (model_path_no_ext ← models_path_with_suffix env1 model_name "";
           load_model env1 model_path_no_ext) = Raise e
    end.
Proof.
  rewrite get_model_cases.
  destruct (model_cache c !! model_name) as [m|] eqn:Hc.
  - intros [= <- <- <-]. split; [done|]. split; [done|].
    by rewrite get_model_cases, Hc.
  - destruct (_ ≫= _) as [m|e] eqn:Hload; intros [= <- <- <-]; [|done].
    split; [done|].
    assert (<[model_name:=m]> (model_cache c) !! model_name = Some m) as Hm
      by apply lookup_insert_eq.
    split; [done|]. rewrite get_model_cases. simpl. by rewrite Hm.
Qed.

Lemma get_model_loads_once_witness :
  get_model Sample.world MODEL_NAME no_caches
  = (Done Sample.by_age,
     {| model_cache := {[ MODEL_NAME := Sample.by_age ]}; meta_cache := ∅; data_cache := ∅ |},
     [])
  ∧ get_model Sample.world_files_gone MODEL_NAME
      {| model_cache := {[ MODEL_NAME := Sample.by_age ]}; meta_cache := ∅; data_cache := ∅ |}
    = (Done Sample.by_age,
       {| model_cache := {[ MODEL_NAME := Sample.by_age ]}; meta_cache := ∅; data_cache := ∅ |},
       []).
Proof.
  split; [reflexivity|].
  apply (get_model_loads_once Sample.world Sample.world_files_gone MODEL_NAME no_caches
           {| model_cache := {[ MODEL_NAME := Sample.by_age ]};
              meta_cache := ∅; data_cache := ∅ |}
           (Done Sample.by_age) []).
  reflexivity.
Defined.

(** X2. Once [get_cluster_names_and_descriptions] has returned the
    mapping of a path, every later call for that path returns the stored
    mapping and neither reads nor checks the file: deleting or editing it
    has no effect.  A call that stops on the missing file, or that fails to
    read it, stores nothing, so the next call tries again. *)
Theorem metadata_cached_for_good (env1 env2 : Env) (json_path : string) (c c1 : Caches)
    (r : outcome Meta) (o : list Element) :
  get_cluster_names_and_descriptions env1 json_path c = (r, c1, o) →
  match r with
  | Done m =>
      o = []
      ∧ meta_cache c1 !! json_path = Some m
      ∧ get_cluster_names_and_descriptions env2 json_path c1 = (Done m, c1, [])
  | _ => c1 = c ∧ meta_cache c !! json_path = None
  end.
Proof.
  rewrite get_cluster_names_and_descriptions_run.
  destruct (meta_cache c !! json_path) as [m|] eqn:Hc.
  - intros [= <- <- <-]. split; [done|]. split; [done|].
    by rewrite get_cluster_names_and_descriptions_run, Hc.
  - destruct (path_exists env1 json_path); [|by intros [= <- <- <-]].
    destruct (json_load env1 json_path) as [m|e]; intros [= <- <- <-]; [|done].
    assert (<[json_path:=m]> (meta_cache c) !! json_path = Some m) as Hm
      by apply lookup_insert_eq.
    split; [done|]. split; [done|].
    rewrite get_cluster_names_and_descriptions_run. simpl. by rewrite Hm.
Qed.

Lemma metadata_cached_for_good_witness :
  get_cluster_names_and_descriptions Sample.world CLUSTERS_JSON no_caches
  = (Done Sample.explorers,
     {| model_cache := ∅; meta_cache := {[ CLUSTERS_JSON := Sample.explorers ]};
        data_cache := ∅ |}, [])
  ∧ path_exists Sample.world_files_gone CLUSTERS_JSON = false
  ∧ get_cluster_names_and_descriptions Sample.world_files_gone CLUSTERS_JSON
      {| model_cache := ∅; meta_cache := {[ CLUSTERS_JSON := Sample.explorers ]};
         data_cache := ∅ |}
    = (Done Sample.explorers,
       {| model_cache := ∅; meta_cache := {[ CLUSTERS_JSON := Sample.explorers ]};
          data_cache := ∅ |}, []).
Proof.
  split; [reflexivity|]. split; [reflexivity|].
  apply (metadata_cached_for_good Sample.world Sample.world_files_gone CLUSTERS_JSON no_caches
           {| model_cache := ∅; meta_cache := {[ CLUSTERS_JSON := Sample.explorers ]};
              data_cache := ∅ |}
           (Done Sample.explorers) []).
  reflexivity.
Defined.

(** X3. [get_all_participants] keeps the cache validated: when every
    stored frame has the [Cluster] column, so has the frame it returns and
    every frame stored afterwards.  When the labels of the frame it
    returns are distinct, that frame can therefore be filtered by cluster,
    for any id.  A call that stops or fails stores nothing. *)
Theorem participants_always_have_cluster (env : Env) (data_path : string) (model : Model)
    (model_sig : string) (c c1 : Caches) (r : outcome DataFrame) (o : list Element) :
  caches_ok c →
  get_all_participants env data_path model model_sig c = (r, c1, o) →
  caches_ok c1
  ∧ match r with
    | Done all_df =>
        has_column "Cluster" all_df = true
        ∧ data_cache c1 !! (data_path, model_sig) = Some all_df
        ∧ (distinct_labels all_df = true → ∀ id, ∃ df, same_cluster_df all_df id = Ok df)
    | _ => c1 = c
    end.
Proof.
  intros Hok. rewrite get_all_participants_run.
  destruct (data_cache c !! (data_path, model_sig)) as [df|] eqn:Hc.
  - intros [= <- <- <-]. split; [done|].
    pose proof (Hok _ _ Hc) as Hcol. split; [done|]. split; [done|].
    intros _ id. rewrite same_cluster_df_Ok by done. eauto.
  - rewrite get_all_participants_body_run.
    destruct (path_exists env data_path); [|by intros [= <- <- <-]].
    destruct (read_csv env data_path) as [all_df|e]; [|by intros [= <- <- <-]].
    destruct (predict_model model all_df) as [df|e]; [|by intros [= <- <- <-]].
    destruct (has_column "Cluster" df) eqn:Hcol; intros [= <- <- <-]; [|done].
    split.
    + intros key df' Hk. simpl in Hk.
      destruct (decide ((data_path, model_sig) = key)) as [<-|Hne].
      * rewrite lookup_insert_eq in Hk. by injection Hk as <-.
      * rewrite lookup_insert_ne in Hk by done. by eapply Hok.
    + split; [done|]. split; [apply lookup_insert_eq|].
      intros _ id. rewrite same_cluster_df_Ok by done. eauto.
Qed.

Lemma participants_always_have_cluster_witness :
  caches_ok no_caches
  ∧ caches_ok (store_participants DATA_FILE Sample.signature Sample.augmented no_caches)
  ∧ has_column "Cluster" Sample.augmented = true
  ∧ distinct_labels Sample.augmented = true
  ∧ ∃ df, same_cluster_df Sample.augmented (Some (VInt 0)) = Ok df.
Proof.
  assert (caches_ok no_caches) as Hok by (intros key df Hk; discriminate Hk).
  split; [exact Hok|].
  pose proof (participants_always_have_cluster Sample.world DATA_FILE Sample.by_age
                Sample.signature no_caches
                (store_participants DATA_FILE Sample.signature Sample.augmented no_caches)
                (Done Sample.augmented) [] Hok eq_refl) as (Hok1 & Hcol & _ & Hfilter).
  split; [exact Hok1|]. split; [exact Hcol|]. split; [reflexivity|].
  exact (Hfilter eq_refl (Some (VInt 0))).
Defined.

(** ** The caches across a render *)

Lemma caches_le_refl (c : Caches) : caches_le c c.
Proof. by repeat split. Qed.

Lemma caches_le_trans (c1 c2 c3 : Caches) :
  caches_le c1 c2 → caches_le c2 c3 → caches_le c1 c3.
Proof.
  intros (Ha & Hb & Hc) (Ha' & Hb' & Hc'). repeat split; eauto.
Qed.

Lemma insert_fresh_le `{Countable K} {V} (m : gmap K V) (k : K) (v : V) :
  m !! k = None → ∀ k' v', m !! k' = Some v' → <[k:=v]> m !! k' = Some v'.
Proof.
  intros Hk k' v' Hk'. destruct (decide (k = k')) as [->|Hne]; [congruence|].
  by rewrite lookup_insert_ne.
Qed.

Lemma model_stage (env : Env) (model_name : string) (c c1 : Caches)
    (r : outcome Model) (o : list Element) :
  get_model env model_name c = (r, c1, o) →
  o = [] ∧ caches_le c c1
  ∧ meta_cache c1 = meta_cache c ∧ data_cache c1 = data_cache c
  ∧ match r with
    | Done m => model_cache c1 !! model_name = Some m
    | Stopped => False
    | Raised _ => c1 = c
    end.
Proof.
  rewrite get_model_cases.
  destruct (model_cache c !! model_name) as [m|] eqn:Hc.
  - intros [= <- <- <-]. repeat split; done.
  - destruct (_ ≫= _) as [m|e]; intros [= <- <- <-].
    + split; [done|]. split.
      * split; [by apply insert_fresh_le|done].
      * repeat split. apply lookup_insert_eq.
    + repeat split; done.
Qed.

Lemma model_hit (env : Env) (model_name : string) (c : Caches) (m : Model) :
  model_cache c !! model_name = Some m → get_model env model_name c = (Done m, c, []).
Proof. intros Hc. by rewrite get_model_cases, Hc. Qed.

Lemma metadata_stage_caches (env : Env) (json_path : string) (c c1 : Caches)
    (r : outcome Meta) (o : list Element) :
  get_cluster_names_and_descriptions env json_path c = (r, c1, o) →
  caches_le c c1
  ∧ model_cache c1 = model_cache c ∧ data_cache c1 = data_cache c
  ∧ match r with
    | Done m => meta_cache c1 !! json_path = Some m
    | _ => c1 = c
    end.
Proof.
  rewrite get_cluster_names_and_descriptions_run.
  destruct (meta_cache c !! json_path) as [m|] eqn:Hc.
  - intros [= <- <- <-]. repeat split; done.
  - destruct (path_exists env json_path); [|intros [= <- <- <-]; by repeat split].
    destruct (json_load env json_path) as [m|e]; intros [= <- <- <-].
    + split.
      * split; [done|]. split; [by apply insert_fresh_le|done].
      * repeat split. apply lookup_insert_eq.
    + by repeat split.
Qed.

Lemma metadata_hit (env : Env) (json_path : string) (c : Caches) (m : Meta) :
  meta_cache c !! json_path = Some m →
  get_cluster_names_and_descriptions env json_path c = (Done m, c, []).
Proof. intros Hc. by rewrite get_cluster_names_and_descriptions_run, Hc. Qed.

Lemma participants_stage_caches (env : Env) (data_path : string) (model : Model)
    (model_sig : string) (c c1 : Caches) (r : outcome DataFrame) (o : list Element) :
  get_all_participants env data_path model model_sig c = (r, c1, o) →
  caches_le c c1
  ∧ model_cache c1 = model_cache c ∧ meta_cache c1 = meta_cache c
  ∧ (caches_ok c → caches_ok c1)
  ∧ match r with
    | Done df => data_cache c1 !! (data_path, model_sig) = Some df
    | _ => c1 = c
    end.
Proof.
  rewrite get_all_participants_run.
  destruct (data_cache c !! (data_path, model_sig)) as [df|] eqn:Hc.
  - intros [= <- <- <-]. repeat split; done.
  - rewrite get_all_participants_body_run.
    destruct (path_exists env data_path); [|intros [= <- <- <-]; by repeat split].
    destruct (read_csv env data_path) as [all_df|e];
      [|intros [= <- <- <-]; by repeat split].
    destruct (predict_model model all_df) as [df|e];
      [|intros [= <- <- <-]; by repeat split].
    destruct (has_column "Cluster" df) eqn:Hcol; intros [= <- <- <-];
      [|by repeat split].
    split; [|split; [done|split; [done|split]]].
    + split; [done|]. split; [done|]. by apply insert_fresh_le.
    + intros Hok key df' Hk. simpl in Hk.
      destruct (decide ((data_path, model_sig) = key)) as [<-|Hne].
      * rewrite lookup_insert_eq in Hk. by injection Hk as <-.
      * rewrite lookup_insert_ne in Hk by done. by eapply Hok.
    + apply lookup_insert_eq.
Qed.

Lemma participants_hit (env : Env) (data_path : string) (model : Model)
    (model_sig : string) (c : Caches) (df : DataFrame) :
  data_cache c !! (data_path, model_sig) = Some df →
  get_all_participants env data_path model model_sig c = (Done df, c, []).
Proof. intros Hc. by rewrite get_all_participants_run, Hc. Qed.

Lemma present_caches (cluster_meta : Meta) (all_df : DataFrame) (id : cell) (c : Caches) :
  (present cluster_meta all_df id c).1.2 = c.
Proof.
  rewrite present_run. cbv zeta.
  destruct (same_cluster_df all_df id) as [df|e]; [|done].
  destruct (df_empty df); [done|].
  destruct (charts df c) as [[o c'] out] eqn:Hch.
  by destruct (charts_only_figures _ _ _ _ _ Hch) as [-> _].
Qed.

Lemma respond_run (model : Model) (cluster_meta : Meta) (all_df : DataFrame) (form : Form)
    (c : Caches) :
  respond model cluster_meta all_df form c
  = match predict_model model (person_df form) with
    | Ok pred =>
        if has_column "Cluster" pred
        then match getitem_column pred "Cluster" ≫= values_0 with
             | Ok id => present cluster_meta all_df id c
             | Raise e => (Raised e, c, [])
             end
        else (Stopped, c, [StError NO_CLUSTER_IN_PREDICTION])
    | Raise e => (Raised e, c, [])
    end.
Proof.
  unfold respond.
  destruct (predict_model model (person_df form)) as [pred|e]; [|done].
  rewrite run_lift_Ok.
  destruct (has_column "Cluster" pred); simpl negb.
  - rewrite run_when_false.
    destruct (getitem_column pred "Cluster" ≫= values_0) as [id|e]; [|done].
    by rewrite run_lift_Ok.
  - unfold st_error. by rewrite run_stop_after.
Qed.

Lemma respond_caches (model : Model) (cluster_meta : Meta) (all_df : DataFrame)
    (form : Form) (c : Caches) :
  (respond model cluster_meta all_df form c).1.2 = c.
Proof.
  rewrite respond_run.
  destruct (predict_model model (person_df form)) as [pred|e]; [|done].
  destruct (has_column "Cluster" pred); [|done].
  destruct (getitem_column pred "Cluster" ≫= values_0) as [id|e]; [|done].
  apply present_caches.
Qed.

(** The script as its three loading stages followed by [respond]. *)
Lemma app_stages (env : Env) (form : Form) (c : Caches) :
  ∃ r1 c1,
    get_model env MODEL_NAME c = (r1, c1, [])
    ∧ match r1 with
      | Stopped => False
      | Raised e => app env form c = (Raised e, c1, sidebar_elements)
      | Done model =>
          ∃ model_sig r2 c2 o2,
            get_model_signature env MODEL_NAME = Ok model_sig
            ∧ get_cluster_names_and_descriptions env CLUSTERS_JSON c1 = (r2, c2, o2)
            ∧ match r2 with
              | Stopped => app env form c = (Stopped, c2, sidebar_elements ++ o2)
              | Raised e => app env form c = (Raised e, c2, sidebar_elements)
              | Done cluster_meta =>
                  ∃ r3 c3 o3,
                    get_all_participants env DATA_FILE model model_sig c2 = (r3, c3, o3)
                    ∧ match r3 with
                      | Stopped => app env form c = (Stopped, c3, sidebar_elements ++ o3)
                      | Raised e => app env form c = (Raised e, c3, sidebar_elements)
                      | Done all_df =>
                          app env form c
                          = let '(o, c4, o4) := respond model cluster_meta all_df form c3 in
                            (o, c4, sidebar_elements ++ o4)
                      end
              end
      end.
Proof.
  rewrite app_run.
  destruct (get_model env MODEL_NAME c) as [[r1 c1] o1] eqn:Hmodel.
  destruct (model_stage _ _ _ _ _ _ Hmodel) as (-> & _ & _ & _ & Hr1).
  exists r1, c1. split; [done|].
  destruct r1 as [model| |e]; [|done|by rewrite app_nil_r].
  destruct (get_model_signature_Ok env MODEL_NAME) as [model_sig Hsig]. rewrite Hsig.
  destruct (get_cluster_names_and_descriptions env CLUSTERS_JSON c1)
    as [[r2 c2] o2] eqn:Hmeta.
  exists model_sig, r2, c2, o2. split; [done|]. split; [done|].
  pose proof (metadata_stage _ _ _ _ _ _ Hmeta) as Ho2.
  destruct r2 as [cluster_meta| |e]; simpl in Ho2; [|done|by subst o2].
  subst o2.
  destruct (get_all_participants env DATA_FILE model model_sig c2)
    as [[r3 c3] o3] eqn:Hdata.
  exists r3, c3, o3. split; [done|].
  pose proof (participants_stage _ _ _ _ _ _ _ _ Hdata) as Ho3.
  destruct r3 as [all_df| |e]; simpl in Ho3; [|done|by subst o3].
  subst o3. rewrite respond_run.
  destruct (predict_model model (person_df form)) as [pred|e]; [|done].
  destruct (has_column "Cluster" pred); [|done].
  destruct (getitem_column pred "Cluster" ≫= values_0) as [id|e]; [|done].
  by destruct (present cluster_meta all_df id c3) as [[o c4] o4].
Qed.

Lemma app_warm (env : Env) (form : Form) (c : Caches) (model : Model) (cluster_meta : Meta)
    (model_sig : string) (all_df : DataFrame) :
  warm c model cluster_meta model_sig all_df →
  get_model_signature env MODEL_NAME = Ok model_sig →
  app env form c
  = let '(o, c4, o4) := respond model cluster_meta all_df form c in
    (o, c4, sidebar_elements ++ o4).
Proof.
  intros (Hmodel & Hmeta & Hdata) Hsig.
  rewrite app_run, (model_hit _ _ _ _ Hmodel), Hsig, (metadata_hit _ _ _ _ Hmeta),
    (participants_hit _ _ _ _ _ _ Hdata), respond_run.
  destruct (predict_model model (person_df form)) as [pred|e]; [|done].
  destruct (has_column "Cluster" pred); [|done].
  destruct (getitem_column pred "Cluster" ≫= values_0) as [id|e]; [|done].
  by destruct (present cluster_meta all_df id c) as [[o c4] o4].
Qed.

Lemma app_caches (env : Env) (form : Form) (c : Caches) :
  caches_le c (app env form c).1.2 ∧ (caches_ok c → caches_ok (app env form c).1.2).
Proof.
  destruct (app_stages env form c) as (r1 & c1 & Hmodel & H).
  destruct (model_stage _ _ _ _ _ _ Hmodel) as (_ & Hle1 & _ & Hd1 & Hr1).
  assert (caches_ok c → caches_ok c1) as Hok1.
  { unfold caches_ok. by rewrite Hd1. }
  destruct r1 as [model| |e]; [|done|by rewrite H].
  destruct H as (model_sig & r2 & c2 & o2 & Hsig & Hmeta & H).
  destruct (metadata_stage_caches _ _ _ _ _ _ Hmeta) as (Hle2 & _ & Hd2 & Hr2).
  assert (caches_le c c2) as Hle12 by eauto using caches_le_trans.
  assert (caches_ok c → caches_ok c2) as Hok2.
  { intros Hok. unfold caches_ok. rewrite Hd2. by apply Hok1. }
  destruct r2 as [cluster_meta| |e]; [|by rewrite H..].
  destruct H as (r3 & c3 & o3 & Hdata & H).
  destruct (participants_stage_caches _ _ _ _ _ _ _ _ Hdata) as (Hle3 & _ & _ & Hok3 & _).
  assert (caches_le c c3) as Hle123 by eauto using caches_le_trans.
  destruct r3 as [all_df| |e]; [|rewrite H; auto..].
  rewrite H. pose proof (respond_caches model cluster_meta all_df form c3) as Hc4.
  destruct (respond model cluster_meta all_df form c3) as [[o c4] o4].
  simpl in *. subst c4. auto.
Qed.

(** ** Properties of a whole render *)

(** X4. Every render puts the sidebar form on the page first, whether it
    goes on to the charts, halts on an error or fails with an
    exception. *)
Theorem sidebar_always_rendered (env : Env) (form : Form) (c : Caches) :
  ∃ rest, (app env form c).2 = sidebar_elements ++ rest.
Proof.
  destruct (app_stages env form c) as (r1 & c1 & Hmodel & H).
  destruct r1 as [model| |e]; [|done|rewrite H; by exists []].
  destruct H as (model_sig & r2 & c2 & o2 & Hsig & Hmeta & H).
  destruct r2 as [cluster_meta| |e]; [|rewrite H; by eauto|rewrite H; by exists []].
  destruct H as (r3 & c3 & o3 & Hdata & H).
  destruct r3 as [all_df| |e]; [|rewrite H; by eauto|rewrite H; by exists []].
  rewrite H. destruct (respond model cluster_meta all_df form c3) as [[o c4] o4]. by eauto.
Qed.

(** X5. A render never removes nor replaces a cache entry: every model,
    metadata mapping and dataset in the caches before the render is there,
    unchanged, after it, however the render ends. *)
Theorem caches_only_grow (env : Env) (form : Form) (c : Caches) :
  caches_le c (app env form c).1.2.
Proof. apply app_caches. Qed.

(** X6. The dataset cache stays validated across renders: it is so when
    the process starts, and if every cached dataset has the [Cluster]
    column before a render then so has every one after it. *)
Theorem render_keeps_cache_validated (env : Env) (form : Form) (c : Caches) :
  caches_ok no_caches ∧ (caches_ok c → caches_ok (app env form c).1.2).
Proof.
  split; [|apply app_caches]. intros key df Hk. discriminate Hk.
Qed.

Lemma render_keeps_cache_validated_witness :
  caches_ok (app Sample.world Sample.form no_caches).1.2.
Proof.
  destruct (render_keeps_cache_validated Sample.world Sample.form no_caches) as [Hok Hstep].
  exact (Hstep Hok).
Defined.

(** X7. With the model, the metadata and the dataset of the current
    signature in the caches, a render depends on the outside world through
    the stat of the model file only: it loads no model, reads neither the
    metadata file nor the data file, does not check that they exist, and
    leaves the caches as they are. *)
Theorem warm_render_reads_no_file (env1 env2 : Env) (form : Form) (c : Caches)
    (model : Model) (cluster_meta : Meta) (model_sig : string) (all_df : DataFrame) :
  warm c model cluster_meta model_sig all_df →
  get_model_signature env1 MODEL_NAME = Ok model_sig →
  get_model_signature env2 MODEL_NAME = Ok model_sig →
  app env1 form c = app env2 form c ∧ (app env1 form c).1.2 = c.
Proof.
  intros Hwarm Hsig1 Hsig2.
  rewrite (app_warm env1 _ _ _ _ _ _ Hwarm Hsig1), (app_warm env2 _ _ _ _ _ _ Hwarm Hsig2).
  split; [done|].
  pose proof (respond_caches model cluster_meta all_df form c) as Hc.
  by destruct (respond model cluster_meta all_df form c) as [[o c4] o4].
Qed.

Lemma warm_render_reads_no_file_witness :
  warm Sample.warm_caches Sample.by_age Sample.explorers Sample.signature Sample.augmented
  ∧ app Sample.world Sample.form Sample.warm_caches
    = app Sample.world_files_gone Sample.form Sample.warm_caches
  ∧ (app Sample.world Sample.form Sample.warm_caches).1.2 = Sample.warm_caches.
Proof.
  assert (warm Sample.warm_caches Sample.by_age Sample.explorers Sample.signature
            Sample.augmented) as Hwarm by (repeat split; reflexivity).
  split; [exact Hwarm|].
  apply (warm_render_reads_no_file Sample.world Sample.world_files_gone Sample.form
           Sample.warm_caches Sample.by_age Sample.explorers Sample.signature
           Sample.augmented Hwarm); reflexivity.
Defined.

(** X8. In an unchanged world a second render with the same selection is
    the first one again: started from the caches the first render left, it
    ends the same way, shows the same page and leaves the caches as they
    are. *)
Theorem render_again_is_the_same (env : Env) (form : Form) (c : Caches) :
  app env form (app env form c).1.2 = app env form c.
Proof.
  destruct (app_stages env form c) as (r1 & c1 & Hmodel & H).
  destruct (model_stage _ _ _ _ _ _ Hmodel) as (_ & _ & Hm1 & Hd1 & Hr1).
  destruct r1 as [model| |e]; [|done|].
  2:{ subst c1. rewrite H. cbn [fst snd]. by rewrite H. }
  destruct H as (model_sig & r2 & c2 & o2 & Hsig & Hmeta & H).
  destruct (metadata_stage_caches _ _ _ _ _ _ Hmeta) as (_ & Hmo2 & Hd2 & Hr2).
  pose proof (metadata_stage _ _ _ _ _ _ Hmeta) as Ho2.
  destruct r2 as [cluster_meta| |e].
  2:{ subst c2. rewrite H. cbn [fst snd].
      rewrite app_run, (model_hit _ _ _ _ Hr1), Hsig, Hmeta. done. }
  2:{ subst c2. simpl in Ho2. subst o2. rewrite H. cbn [fst snd].
      rewrite app_run, (model_hit _ _ _ _ Hr1), Hsig, Hmeta.
      by rewrite ?app_nil_r. }
  simpl in Ho2. subst o2.
  destruct H as (r3 & c3 & o3 & Hdata & H).
  destruct (participants_stage_caches _ _ _ _ _ _ _ _ Hdata) as (_ & Hmo3 & Hme3 & _ & Hr3).
  pose proof (participants_stage _ _ _ _ _ _ _ _ Hdata) as Ho3.
  assert (model_cache c2 !! MODEL_NAME = Some model) as Hmodel2 by (by rewrite Hmo2).
  destruct r3 as [all_df| |e].
  2:{ subst c3. rewrite H. cbn [fst snd].
      rewrite app_run, (model_hit _ _ _ _ Hmodel2), Hsig, (metadata_hit _ _ _ _ Hr2), Hdata.
      done. }
  2:{ subst c3. simpl in Ho3. subst o3. rewrite H. cbn [fst snd].
      rewrite app_run, (model_hit _ _ _ _ Hmodel2), Hsig, (metadata_hit _ _ _ _ Hr2), Hdata.
      by rewrite ?app_nil_r. }
  assert (warm c3 model cluster_meta model_sig all_df) as Hwarm.
  { split; [by rewrite Hmo3|]. split; [by rewrite Hme3|done]. }
  rewrite H. pose proof (respond_caches model cluster_meta all_df form c3) as Hc4.
  destruct (respond model cluster_meta all_df form c3) as [[o c4] o4] eqn:Hresp.
  cbn [fst snd] in *. subst c4.
  by rewrite (app_warm env _ _ _ _ _ _ Hwarm Hsig), Hresp.
Qed.

(** The figures of the chart phase: at most five, each over as many rows
    as the group has. *)
Lemma charts_figures_bound (df : DataFrame) (c c' : Caches) (o : outcome unit)
    (out : list Element) :
  charts df c = (o, c', out) →
  (length (figures out) ≤ 5)%nat
  ∧ ∀ fig, fig ∈ figures out → len (fig_data fig) = len df.
Proof.
  rewrite charts_run. destruct (later_charts_figures df) as (_ & Hx & Hdata).
  assert ((length (figures (later_charts df)) ≤ 4)%nat) as Hlen.
  { rewrite <- (length_map fig_x), Hx.
    etrans; [apply filter_length_le|]. done. }
  rewrite Forall_forall in Hdata.
  assert (∀ fig, fig ∈ figures (later_charts df) → len (fig_data fig) = len df) as Hlater.
  { intros fig Hin. destruct (Hdata fig Hin) as [_ ->]. done. }
  destruct (has_column "age" df); [destruct (sort_values "age" df) as [sorted|e] eqn:Hs|];
    intros [= <- <- <-]; simpl.
  - split; [lia|]. intros fig [->|Hin]%elem_of_cons; [|by apply Hlater].
    simpl. destruct (sort_values_Ok _ _ _ Hs) as (_ & Hperm & _).
    unfold len. by rewrite Hperm.
  - split; [lia|]. by intros fig Hin%elem_of_nil.
  - split; [lia|done].
Qed.

Lemma df_empty_false (df : DataFrame) : df_empty df = false → len df ≠ 0%nat.
Proof.
  unfold df_empty, len. intros [H _]%orb_false_elim. by apply bool_decide_eq_false in H.
Qed.

Lemma present_done (cluster_meta : Meta) (all_df : DataFrame) (id : cell) (c : Caches) :
  (present cluster_meta all_df id c).1.1 = Done tt →
  ∃ df figs,
    same_cluster_df all_df id = Ok df
    ∧ len df ≠ 0%nat
    ∧ (present cluster_meta all_df id c).2
      = [StHeader ("Najbliżej Ci do grupy: " +:+ cluster_name cluster_meta id);
         StMarkdown (cluster_desc cluster_meta id);
         StMetric "Liczba osób w Twojej grupie" (len df)] ++ map StPlotlyChart figs
    ∧ (length figs ≤ 5)%nat
    ∧ ∀ fig, fig ∈ figs → len (fig_data fig) = len df.
Proof.
  rewrite present_run. cbv zeta.
  destruct (same_cluster_df all_df id) as [df|e]; [|done].
  destruct (df_empty df) eqn:Hempty; [done|].
  destruct (charts df c) as [[o c'] out] eqn:Hch. intros _.
  destruct (charts_only_figures _ _ _ _ _ Hch) as [_ Hfig].
  destruct (charts_figures_bound _ _ _ _ _ Hch) as [Hlen Hrows].
  exists df, (figures out). split; [done|]. split; [by apply df_empty_false|].
  split; [simpl; by rewrite Hfig|]. done.
Qed.

(** X9. A render that runs to its end shows, after the sidebar, the
    header, the description and the metric, then figures and nothing else;
    the metric is not zero, there are at most five figures, and every
    figure is drawn over exactly as many rows as the metric says. *)
Theorem completed_page_shape (env : Env) (form : Form) (c : Caches) :
  (app env form c).1.1 = Done tt →
  ∃ name desc n figs,
    (app env form c).2
    = sidebar_elements
      ++ [StHeader ("Najbliżej Ci do grupy: " +:+ name); StMarkdown desc;
          StMetric "Liczba osób w Twojej grupie" n]
      ++ map StPlotlyChart figs
    ∧ n ≠ 0%nat
    ∧ (length figs ≤ 5)%nat
    ∧ ∀ fig, fig ∈ figs → len (fig_data fig) = n.
Proof.
  destruct (app_stages env form c) as (r1 & c1 & Hmodel & H).
  destruct r1 as [model| |e]; [|done|by rewrite H].
  destruct H as (model_sig & r2 & c2 & o2 & Hsig & Hmeta & H).
  destruct r2 as [cluster_meta| |e]; [|by rewrite H..].
  destruct H as (r3 & c3 & o3 & Hdata & H).
  destruct r3 as [all_df| |e]; [|by rewrite H..].
  rewrite H, respond_run.
  destruct (predict_model model (person_df form)) as [pred|e]; [|done].
  destruct (has_column "Cluster" pred); [|done].
  destruct (getitem_column pred "Cluster" ≫= values_0) as [id|e]; [|done].
  pose proof (present_done cluster_meta all_df id c3) as Hdone.
  destruct (present cluster_meta all_df id c3) as [[o c4] o4].
  cbn [fst snd] in *. intros Ho.
  destruct (Hdone Ho) as (df & figs & _ & Hn & -> & Hlen & Hrows).
  by exists (cluster_name cluster_meta id), (cluster_desc cluster_meta id), (len df), figs.
Qed.

Lemma completed_page_shape_witness :
  (app Sample.world Sample.form no_caches).1.1 = Done tt
  ∧ ∃ name desc n figs,
      (app Sample.world Sample.form no_caches).2
      = sidebar_elements
        ++ [StHeader ("Najbliżej Ci do grupy: " +:+ name); StMarkdown desc;
            StMetric "Liczba osób w Twojej grupie" n]
        ++ map StPlotlyChart figs
      ∧ n ≠ 0%nat
      ∧ (length figs ≤ 5)%nat
      ∧ ∀ fig, fig ∈ figs → len (fig_data fig) = n.
Proof.
  split; [reflexivity|].
  apply (completed_page_shape Sample.world Sample.form no_caches). reflexivity.
Defined.

(** X10. A render halted on an error shows the sidebar form and the error
    and nothing else: no header, no metric, no figure is on the page, at
    whichever of the halt points the run ended. *)
Theorem halt_shows_only_the_error (env : Env) (form : Form) (c : Caches) (s : string) :
  halted_with s (app env form c) →
  (app env form c).2 = sidebar_elements ++ [StError s].
Proof.
  unfold halted_with.
  destruct (app_stages env form c) as (r1 & c1 & Hmodel & H).
  destruct r1 as [model| |e]; [|done|rewrite H; by intros [[=] _]].
  destruct H as (model_sig & r2 & c2 & o2 & Hsig & Hmeta & H).
  pose proof (metadata_stage _ _ _ _ _ _ Hmeta) as Ho2.
  destruct r2 as [cluster_meta| |e]; [| |rewrite H; by intros [[=] _]].
  2:{ destruct Ho2 as (-> & _). rewrite H. cbn [fst snd].
      intros [_ [before Hout]]. by apply app_inj_tail in Hout as [_ [= ->]]. }
  destruct H as (r3 & c3 & o3 & Hdata & H).
  pose proof (participants_stage _ _ _ _ _ _ _ _ Hdata) as Ho3.
  destruct r3 as [all_df| |e]; [| |rewrite H; by intros [[=] _]].
  2:{ rewrite H. cbn [fst snd]. intros [_ [before Hout]].
      destruct Ho3 as [_ [[_ ->]|(_ & d & df & _ & _ & _ & ->)]];
        by apply app_inj_tail in Hout as [_ [= ->]]. }
  rewrite H, respond_run.
  destruct (predict_model model (person_df form)) as [pred|e]; [|by intros [[=] _]].
  destruct (has_column "Cluster" pred).
  2:{ cbn [fst snd]. intros [_ [before Hout]].
      by apply app_inj_tail in Hout as [_ [= ->]]. }
  destruct (getitem_column pred "Cluster" ≫= values_0) as [id|e]; [|by intros [[=] _]].
  destruct (present_stop cluster_meta all_df id c3) as [_ Hstop].
  destruct (present cluster_meta all_df id c3) as [[o c4] o4].
  cbn [fst snd] in *. intros [Ho [before Hout]].
  destruct (Hstop Ho) as [before' ->].
  rewrite app_assoc in Hout. by apply app_inj_tail in Hout as [_ [=]].
Qed.

Lemma halt_shows_only_the_error_witness :
  halted_with (NO_DATA_FILE DATA_FILE) (app Sample.world_no_data Sample.form no_caches)
  ∧ (app Sample.world_no_data Sample.form no_caches).2
    = sidebar_elements ++ [StError (NO_DATA_FILE DATA_FILE)].
Proof.
  assert (halted_with (NO_DATA_FILE DATA_FILE)
            (app Sample.world_no_data Sample.form no_caches)) as Hhalt.
  { split; [reflexivity|]. exists sidebar_elements. reflexivity. }
  split; [exact Hhalt|].
  exact (halt_shows_only_the_error Sample.world_no_data Sample.form no_caches
           (NO_DATA_FILE DATA_FILE) Hhalt).
Defined.

(** X11. When the signature of the model file is new to the dataset cache
    while a model is already loaded, the render computes the dataset again
    with the loaded model: the new file is not loaded, and the render is
    the one from the caches with that dataset stored under the new
    signature. *)
Theorem new_signature_recomputes_with_loaded_model (env : Env) (form : Form) (c : Caches)
    (model : Model) (cluster_meta : Meta) (model_sig : string) (all_df df : DataFrame) :
  model_cache c !! MODEL_NAME = Some model →
  meta_cache c !! CLUSTERS_JSON = Some cluster_meta →
  get_model_signature env MODEL_NAME = Ok model_sig →
  data_cache c !! (DATA_FILE, model_sig) = None →
  path_exists env DATA_FILE = true →
  read_csv env DATA_FILE = Ok all_df →
  predict_model model all_df = Ok df →
  has_column "Cluster" df = true →
  app env form c = app env form (store_participants DATA_FILE model_sig df c)
  ∧ data_cache (app env form c).1.2 !! (DATA_FILE, model_sig) = Some df
  ∧ model_cache (app env form c).1.2 !! MODEL_NAME = Some model.
Proof.
  intros Hmodel Hmeta Hsig Hmiss Hex Hcsv Hpred Hcol.
  set (c' := store_participants DATA_FILE model_sig df c).
  assert (warm c' model cluster_meta model_sig df) as Hwarm.
  { split; [done|]. split; [done|]. apply lookup_insert_eq. }
  assert (app env form c
          = let '(o, c4, o4) := respond model cluster_meta df form c' in
            (o, c4, sidebar_elements ++ o4)) as Happ.
  { rewrite app_run, (model_hit _ _ _ _ Hmodel), Hsig, (metadata_hit _ _ _ _ Hmeta),
      get_all_participants_run, Hmiss, get_all_participants_body_run, Hex, Hcsv, Hpred, Hcol.
    fold c'. rewrite respond_run.
    destruct (predict_model model (person_df form)) as [pred|e]; [|done].
    destruct (has_column "Cluster" pred); [|done].
    destruct (getitem_column pred "Cluster" ≫= values_0) as [id|e]; [|done].
    by destruct (present cluster_meta df id c') as [[o c4] o4]. }
  rewrite (app_warm env _ _ _ _ _ _ Hwarm Hsig), Happ. split; [done|].
  pose proof (respond_caches model cluster_meta df form c') as Hc4.
  destruct (respond model cluster_meta df form c') as [[o c4] o4].
  cbn [fst snd] in *. subst c4. by destruct Hwarm as (? & ? & ?).
Qed.

Lemma new_signature_recomputes_with_loaded_model_witness :
  load_model Sample.world_swapped_model "models/model_4" = Ok Sample.no_cluster
  ∧ get_model_signature Sample.world_swapped_model MODEL_NAME = Ok Sample.signature_new
  ∧ data_cache (app Sample.world_swapped_model Sample.form Sample.warm_caches).1.2
      !! (DATA_FILE, Sample.signature_new) = Some Sample.augmented
  ∧ model_cache (app Sample.world_swapped_model Sample.form Sample.warm_caches).1.2
      !! MODEL_NAME = Some Sample.by_age.
Proof.
  split; [reflexivity|]. split; [reflexivity|].
  apply (new_signature_recomputes_with_loaded_model Sample.world_swapped_model Sample.form
           Sample.warm_caches Sample.by_age Sample.explorers Sample.signature_new
           Sample.participants Sample.augmented); reflexivity.
Defined.

(** X12. The predicted cluster is the [Cluster] cell of the first row of
    the prediction, later rows are ignored; a prediction that has the
    column but no row makes the render fail with [IndexError] after the
    sidebar, before any header. *)
Theorem prediction_uses_first_row (env : Env) (form : Form) (c : Caches) (model : Model)
    (cluster_meta : Meta) (model_sig : string) (all_df pred : DataFrame) :
  warm c model cluster_meta model_sig all_df →
  get_model_signature env MODEL_NAME = Ok model_sig →
  predict_model model (person_df form) = Ok pred →
  has_column "Cluster" pred = true →
  app env form c
  = match rows pred with
    | [] => (Raised IndexError, c, sidebar_elements)
    | r :: _ =>
        let '(o, c4, o4) := present cluster_meta all_df (assigned_cluster pred r) c in
        (o, c4, sidebar_elements ++ o4)
    end.
Proof.
  intros Hwarm Hsig Hpred Hcol.
  rewrite (app_warm env _ _ _ _ _ _ Hwarm Hsig), respond_run, Hpred, Hcol.
  destruct (has_column_index _ _ Hcol) as [i Hi].
  unfold getitem_column, assigned_cluster. rewrite Hi. simpl.
  destruct (rows pred) as [|r rest]; simpl; done.
Qed.

Lemma prediction_uses_first_row_witness :
  warm Sample.warm_caches_no_rows Sample.no_rows Sample.explorers Sample.signature
    Sample.augmented
  ∧ app Sample.world Sample.form Sample.warm_caches_no_rows
    = (Raised IndexError, Sample.warm_caches_no_rows, sidebar_elements).
Proof.
  assert (warm Sample.warm_caches_no_rows Sample.no_rows Sample.explorers Sample.signature
            Sample.augmented) as Hwarm by (repeat split; reflexivity).
  split; [exact Hwarm|].
  apply (prediction_uses_first_row Sample.world Sample.form Sample.warm_caches_no_rows
           Sample.no_rows Sample.explorers Sample.signature Sample.augmented
           {| columns := columns (person_df Sample.form) ++ ["Cluster"]; rows := [] |} Hwarm);
    reflexivity.
Defined.

(** X13. When the age column of a peer group with rows mixes numbers and
    strings, sorting it for the first chart raises [TypeError]: the page
    has the header, the description and the metric, and no chart at all,
    also none of the columns that could be charted. *)
Theorem mixed_age_column_stops_charts (cluster_meta : Meta) (all_df df : DataFrame)
    (id : cell) (c : Caches) :
  same_cluster_df all_df id = Ok df →
  len df ≠ 0%nat →
  has_column "age" df = true →
  comparable_column "age" df = false →
  present cluster_meta all_df id c
  = (Raised TypeError, c,
     [StHeader ("Najbliżej Ci do grupy: " +:+ cluster_name cluster_meta id);
      StMarkdown (cluster_desc cluster_meta id);
      StMetric "Liczba osób w Twojej grupie" (len df)]).
Proof.
  intros Hdf Hlen Hage Hmixed.
  assert (df_empty df = false) as Hne.
  { destruct (same_cluster_df_columns _ _ _ Hdf) as [Hc Hcols].
    unfold df_empty, len in *. rewrite Hcols.
    apply bool_decide_eq_true in Hc.
    destruct (columns all_df); [by apply elem_of_nil in Hc|].
    by rewrite bool_decide_eq_false_2. }
  rewrite present_run, Hdf. cbv zeta.
  by rewrite Hne, charts_run, Hage, (sort_values_mixed _ _ Hage Hmixed).
Qed.

Lemma mixed_age_column_stops_charts_witness :
  same_cluster_df Sample.mixed_ages (Some (VInt 0)) = Ok Sample.mixed_ages
  ∧ has_column "gender" Sample.mixed_ages = true
  ∧ present Sample.explorers Sample.mixed_ages (Some (VInt 0)) no_caches
    = (Raised TypeError, no_caches,
       [StHeader ("Najbliżej Ci do grupy: " +:+ cluster_name Sample.explorers (Some (VInt 0)));
        StMarkdown (cluster_desc Sample.explorers (Some (VInt 0)));
        StMetric "Liczba osób w Twojej grupie" (len Sample.mixed_ages)]).
Proof.
  split; [reflexivity|]. split; [reflexivity|].
  apply (mixed_age_column_stops_charts Sample.explorers Sample.mixed_ages Sample.mixed_ages
           (Some (VInt 0)) no_caches); [reflexivity|discriminate|reflexivity|reflexivity].
Defined.

(** ** Peer groups *)

Lemma count_rows_exclusive (p q : list cell → bool) (l : list (list cell)) :
  (∀ r, p r = true → q r = false) →
  (count_rows p l + count_rows q l ≤ length l)%nat.
Proof.
  intros Hpq. induction l as [|r l IH]; simpl; [done|].
  destruct (p r) eqn:Hp; [rewrite (Hpq r Hp)|destruct (q r)]; lia.
Qed.

Lemma py_eq_exclusive (a id1 id2 : cell) :
  id1 ≠ id2 → py_eq a id1 = true → py_eq a id2 = false.
Proof.
  intros Hne [-> Hsome]%py_eq_true.
  destruct (py_eq id1 id2) eqn:Heq; [|done].
  by apply py_eq_true in Heq as [-> _].
Qed.

(** X14. The peer groups of two different ids share no row of the
    dataset, so together they are no larger than the dataset; and every
    row with a cluster is in the peer group of its own cluster. *)
Theorem peer_groups_are_disjoint (all_df df1 df2 : DataFrame) (id1 id2 : cell) :
  same_cluster_df all_df id1 = Ok df1 →
  same_cluster_df all_df id2 = Ok df2 →
  id1 ≠ id2 →
  (∀ r, r ∈ rows df1 → r ∉ rows df2)
  ∧ (len df1 + len df2 ≤ len all_df)%nat
  ∧ (∀ r, r ∈ rows all_df → assigned_cluster all_df r = id1 → id1 ≠ None → r ∈ rows df1).
Proof.
  intros H1 H2 Hne.
  destruct (same_cluster_df_columns _ _ _ H1) as [Hc _].
  rewrite same_cluster_df_Ok in H1, H2 by done.
  injection H1 as <-. injection H2 as <-. unfold len. simpl.
  split; [|split].
  - intros r [_ Hr1]%list_elem_of_In%filter_In [_ Hr2]%list_elem_of_In%filter_In.
    by rewrite (py_eq_exclusive _ _ _ Hne Hr1) in Hr2.
  - rewrite !length_filter_count. apply count_rows_exclusive.
    intros r. by apply py_eq_exclusive.
  - intros r Hin Hr Hsome. apply list_elem_of_In, filter_In.
    split; [by apply list_elem_of_In|]. apply py_eq_true. by rewrite Hr.
Qed.

Lemma peer_groups_are_disjoint_witness :
  same_cluster_df Sample.augmented (Some (VInt 0)) = Ok Sample.group_0
  ∧ same_cluster_df Sample.augmented (Some (VInt 2)) = Ok Sample.group_2
  ∧ (len Sample.group_0 + len Sample.group_2 ≤ len Sample.augmented)%nat.
Proof.
  split; [reflexivity|]. split; [reflexivity|].
  apply (peer_groups_are_disjoint Sample.augmented Sample.group_0 Sample.group_2
           (Some (VInt 0)) (Some (VInt 2))); [reflexivity|reflexivity|discriminate].
Defined.

Lemma assigned_cluster_columns (df df' : DataFrame) (r : list cell) :
  columns df = columns df' → assigned_cluster df r = assigned_cluster df' r.
Proof. unfold assigned_cluster. by intros ->. Qed.

Lemma filter_exclusive {A} (p q : A → bool) (l : list A) :
  (∀ x, p x = true → q x = false) → List.filter q (List.filter p l) = [].
Proof.
  intros Hpq. induction l as [|x l IH]; [done|]. simpl.
  destruct (p x) eqn:Hp; [|done]. simpl. by rewrite (Hpq x Hp).
Qed.

Lemma filter_again {A} (p q : A → bool) (l : list A) :
  (∀ x, p x = true → q x = true) → List.filter q (List.filter p l) = List.filter p l.
Proof.
  intros Hpq. induction l as [|x l IH]; [done|]. simpl.
  destruct (p x) eqn:Hp; [|done]. simpl. by rewrite (Hpq x Hp), IH.
Qed.

(** X15. A peer group is closed under its own filter: every row of it
    has the id as its cluster, filtering the group by the same id gives the
    group back, and filtering it by any other id gives no row. *)
Theorem peer_group_is_its_own_group (all_df df : DataFrame) (id : cell) :
  same_cluster_df all_df id = Ok df →
  (∀ r, r ∈ rows df → assigned_cluster df r = id)
  ∧ same_cluster_df df id = Ok df
  ∧ ∀ id', id' ≠ id →
      same_cluster_df df id' = Ok {| columns := columns df; rows := [] |}.
Proof.
  intros Hdf. destruct (same_cluster_df_columns _ _ _ Hdf) as [Hc Hcols].
  assert (has_column "Cluster" df = true) as Hc'.
  { unfold has_column in *. by rewrite Hcols. }
  assert (rows df = List.filter (λ r, py_eq (assigned_cluster all_df r) id) (rows all_df))
    as Hrows.
  { rewrite same_cluster_df_Ok in Hdf by done. by injection Hdf as <-. }
  split; [|split].
  - intros r Hin. rewrite Hrows in Hin.
    apply list_elem_of_In, filter_In in Hin as [_ Hr].
    rewrite (assigned_cluster_columns df all_df) by done.
    by apply py_eq_true in Hr as [? _].
  - rewrite same_cluster_df_Ok by done. destruct df as [cols rs]. simpl in *.
    f_equal. f_equal. rewrite Hrows. apply filter_again.
    intros r Hr. by rewrite (assigned_cluster_columns _ all_df).
  - intros id' Hne. rewrite same_cluster_df_Ok by done. f_equal. f_equal.
    rewrite Hrows. apply filter_exclusive.
    intros r Hr. rewrite (assigned_cluster_columns _ all_df) by done.
    by apply (py_eq_exclusive _ id id').
Qed.

Lemma peer_group_is_its_own_group_witness :
  same_cluster_df Sample.augmented (Some (VInt 0)) = Ok Sample.group_0
  ∧ same_cluster_df Sample.group_0 (Some (VInt 0)) = Ok Sample.group_0.
Proof.
  split; [reflexivity|].
  apply (peer_group_is_its_own_group Sample.augmented Sample.group_0 (Some (VInt 0))).
  reflexivity.
Defined.

(** ** The signature and the fallback *)

Lemma append_nil_r (s : string) : s +:+ "" = s.
Proof. induction s as [|a s IH]; norm_append; [done|]. by rewrite IH. Qed.

(** X16. The signature of a model file that can be stat'ed is never the
    bare model name, so a model file that appears or disappears between
    two renders changes the signature. *)
Theorem signature_differs_from_fallback (env1 env2 : Env) (model_name pkl_path : string)
    (stt : stat_result) :
  models_path_with_suffix env1 model_name ".pkl" = Ok pkl_path →
  path_stat env1 pkl_path = Ok stt →
  get_model_signature env1 model_name ≠ Ok model_name
  ∧ (get_model_signature env2 model_name = Ok model_name →
     get_model_signature env1 model_name ≠ get_model_signature env2 model_name).
Proof.
  intros Hp Hs. rewrite get_model_signature_run, Hp, Hs.
  assert (signature_of model_name stt ≠ model_name) as Hne.
  { unfold signature_of. intros Heq.
    rewrite <- (append_nil_r model_name) in Heq at 2.
    apply append_inj_l in Heq. norm_append. discriminate Heq. }
  split; [by intros [= ?]|]. intros ->. by intros [= ?].
Qed.

Lemma signature_differs_from_fallback_witness :
  get_model_signature Sample.world MODEL_NAME ≠ Ok MODEL_NAME
  ∧ get_model_signature Sample.world MODEL_NAME
    ≠ get_model_signature Sample.world_locked_model MODEL_NAME.
Proof.
  destruct (signature_differs_from_fallback Sample.world Sample.world_locked_model
              MODEL_NAME "models/model_4.pkl"
              {| st_mtime_ns := 1700000000000000000; st_size := 1024 |} eq_refl eq_refl)
    as [Hne Hfall].
  split; [exact Hne|]. apply Hfall. reflexivity.
Defined.

(** ** Exceptions of a render *)

Lemma sort_values_raises (by_ : string) (df : DataFrame) (e : exn) :
  has_column by_ df = true → sort_values by_ df = Raise e → e = TypeError.
Proof.
  intros Hc. destruct (has_column_index _ _ Hc) as [i Hi].
  unfold sort_values. rewrite Hi. destruct (comparable_keys _); [done|]. by intros [= <-].
Qed.


